(** * my-app: the chat relay route, the floating chat widget, the admin pages

    A shallow embedding of

      - [src/app/api/chat/route.ts]            (module [Route]),
      - [src/components/ui/FloatingChat.tsx]   (module [FloatingChat]),
      - [src/app/admin/students/page.tsx]      (module [Admin]: the list's
        filter, counters, colours and CSV export, and the reset-password
        dialog of the student page),

    over a small model of the JavaScript values and effects the files use
    (module [JS]), followed by the properties of the relay, of the widget,
    of the two together, and of the admin pages.  Of the admin pages,
    [loadStudents], [loadStudentData] and [handleUpdateStudent] are not
    modelled: they work on raw response bodies and, through [Promise.all],
    on the order in which two requests settle. *)

From Stdlib Require Import List String Ascii NArith Bool Lia.
From Stdlib Require Import Floats.PrimFloat.
From Stdlib Require Floats.FloatOps Floats.FloatAxioms Floats.SpecFloat.
From Stdlib Require PeanoNat.
Import ListNotations.

#[local] Set Warnings "-inexact-float,-register-all".
#[local] Open Scope N_scope.
#[local] Open Scope list_scope.

(* ===================================================================== *)
(** * JavaScript values, strings and effects *)
(* ===================================================================== *)

Module JS.

(** A JavaScript string is a sequence of UTF-16 code units. *)
Definition jsstring : Type := list N.

(** ASCII literals of the sources, as code units. *)
Definition js (s : string) : jsstring :=
  map N_of_ascii (list_ascii_of_string s).

Definition is_empty (s : jsstring) : bool :=
  match s with [] => true | _ :: _ => false end.

Fixpoint jsstring_eqb (a b : jsstring) : bool :=
  match a, b with
  | [], [] => true
  | x :: a', y :: b' => (x =? y) && jsstring_eqb a' b'
  | _, _ => false
  end.

(** ECMAScript WhiteSpace and LineTerminator code points; all of them lie in
    the basic plane, so the test is exact on code units. *)
Definition is_whitespace (c : N) : bool :=
  (c =? 9) || (c =? 10) || (c =? 11) || (c =? 12) || (c =? 13) || (c =? 32)
  || (c =? 160) || (c =? 5760)
  || ((8192 <=? c) && (c <=? 8202))
  || (c =? 8232) || (c =? 8233) || (c =? 8239) || (c =? 8287)
  || (c =? 12288) || (c =? 65279).

Fixpoint trimStart (s : jsstring) : jsstring :=
  match s with
  | c :: rest => if is_whitespace c then trimStart rest else s
  | [] => []
  end.

(** [String.prototype.trim]. *)
Definition trim (s : jsstring) : jsstring :=
  rev (trimStart (rev (trimStart s))).

(** The values that [JSON.parse] produces, plus [undefined], which property
    reads produce.  An object is the list of its own properties in insertion
    order (names are unique in a parsed object; a read takes the first). *)
Inductive value : Type :=
| VUndefined
| VNull
| VBool (b : bool)
| VNum (n : float)
| VStr (s : jsstring)
| VArr (elems : list value)
| VObj (props : list (jsstring * value)).

(** What a [throw] carries. *)
Inductive exn : Type :=
| Error (message : jsstring)          (* [new Error(message)] *)
| TypeError                           (* a property read of null or undefined;
                                         the engine's message is not modelled *)
| Thrown (name message : jsstring).   (* any other exception of the platform:
                                         a SyntaxError of [json()], a network
                                         failure of [fetch], the TypeError of
                                         a failed conversion to a string, ... *)

(** A computation that returns or throws; also what a promise settles to. *)
Definition result (A : Type) : Type := (exn + A)%type.
Definition Promise (A : Type) : Type := result A.

(** ToBoolean: the test of [!x], [x || y] and [if (x)]. *)
Definition ToBoolean (v : value) : bool :=
  match v with
  | VUndefined | VNull => false
  | VBool b => b
  | VNum n => negb (PrimFloat.eqb n 0%float || PrimFloat.is_nan n)
  | VStr s => negb (is_empty s)
  | VArr _ | VObj _ => true
  end.

(** [a || b] on values. *)
Definition or_else (a b : value) : value :=
  if ToBoolean a then a else b.

Definition is_nullish (v : value) : bool :=
  match v with VUndefined | VNull => true | _ => false end.

Fixpoint lookup (k : jsstring) (props : list (jsstring * value)) : option value :=
  match props with
  | [] => None
  | (k', v) :: rest => if jsstring_eqb k k' then Some v else lookup k rest
  end.

(** [v.name], for the property names the two sources read ([query],
    [subject], [candidates], [content], [parts], [text], [error], [message],
    [success], [response]): none of them is defined on the prototypes of
    strings, numbers, booleans, arrays or plain objects, so only an object's
    own properties can answer. *)
Definition Get (v : value) (name : jsstring) : result value :=
  match v with
  | VUndefined | VNull => inl TypeError
  | VObj props =>
      inr (match lookup name props with Some x => x | None => VUndefined end)
  | VBool _ | VNum _ | VStr _ | VArr _ => inr VUndefined
  end.

(** [v[0]]: the first element of an array, the first code unit of a string,
    the property ["0"] of an object. *)
Definition Get0 (v : value) : result value :=
  match v with
  | VUndefined | VNull => inl TypeError
  | VArr elems => inr (match elems with x :: _ => x | [] => VUndefined end)
  | VStr s => inr (match s with c :: _ => VStr [c] | [] => VUndefined end)
  | VObj props =>
      inr (match lookup (js "0") props with Some x => x | None => VUndefined end)
  | VBool _ | VNum _ => inr VUndefined
  end.

(** Optional chaining [v?.access]: undefined when [v] is null or undefined. *)
Definition opt (v : result value) (access : value -> result value)
  : result value :=
  match v with
  | inl e => inl e
  | inr x => if is_nullish x then inr VUndefined else access x
  end.

(** [const { a, b } = v]. *)
Definition destructure2 (v : value) (a b : jsstring) : result (value * value) :=
  match Get v a with
  | inl e => inl e
  | inr x => match Get v b with
             | inl e => inl e
             | inr y => inr (x, y)
             end
  end.

(** Built-ins of the runtime that are used but not modelled: the decimal
    text of a number, [JSON.stringify], and the engine's message for an
    object that cannot be converted to a primitive value. *)
Record Builtins : Type := {
  Number_toString : float -> jsstring;
  JSON_stringify : value -> jsstring;
  conversion_message : jsstring
}.

Section ToString.
Variable rt : Builtins.

(** The TypeError of a conversion that finds no usable [toString] or
    [valueOf]. *)
Definition cannot_convert : exn :=
  Thrown (js "TypeError") (conversion_message rt).

(** ToString, as a template literal and [new Error] apply it to the values
    above.  An object is converted by its [toString] method: a parsed object
    inherits the one that prints [[object Object]], unless it has an own
    property [toString], which is never callable in parsed data; then
    [valueOf] is tried, which gives no primitive, and the conversion throws.
    An array joins the conversions of its elements, null and undefined
    counting as empty. *)
Fixpoint ToString (v : value) : result jsstring :=
  match v with
  | VUndefined => inr (js "undefined")
  | VNull => inr (js "null")
  | VBool true => inr (js "true")
  | VBool false => inr (js "false")
  | VNum n => inr (Number_toString rt n)
  | VStr s => inr s
  | VArr elems =>
      (fix join (l : list value) : result jsstring :=
         match l with
         | [] => inr []
         | x :: rest =>
             match (if is_nullish x then inr [] else ToString x) with
             | inl e => inl e
             | inr sx =>
                 match rest with
                 | [] => inr sx
                 | _ :: _ =>
                     match join rest with
                     | inl e => inl e
                     | inr sr => inr (sx ++ js "," ++ sr)
                     end
                 end
             end
         end) elems
  | VObj props =>
      match lookup (js "toString") props with
      | Some _ => inl cannot_convert
      | None => inr (js "[object Object]")
      end
  end.
End ToString.

(** What [JSON.parse(JSON.stringify(v))] gives for the values above, that is
    how a value sent as JSON reads on the other side: a number that is not
    finite is sent as null and a negative zero as zero, an undefined element
    of an array as null, an undefined property not at all; everything else
    is sent as it is. *)
Fixpoint through_JSON (v : value) : value :=
  match v with
  | VUndefined | VNull | VBool _ | VStr _ => v
  | VNum n =>
      if PrimFloat.is_finite n then
        if PrimFloat.eqb n 0%float then VNum 0%float else VNum n
      else VNull
  | VArr elems =>
      VArr (map (fun x => match x with
                          | VUndefined => VNull
                          | _ => through_JSON x
                          end) elems)
  | VObj props =>
      VObj ((fix each (l : list (jsstring * value)) : list (jsstring * value) :=
               match l with
               | [] => []
               | (k, x) :: rest =>
                   match x with
                   | VUndefined => each rest
                   | _ => (k, through_JSON x) :: each rest
                   end
               end) props)
  end.

(** The [init] argument of [fetch]. *)
Record RequestInit : Type := {
  method : jsstring;
  headers : list (jsstring * jsstring);
  body : jsstring
}.

(** A [Response] of the Fetch API: [parsed] is what [.json()] settles to. *)
Record Response : Type := {
  status : N;
  statusText : jsstring;
  parsed : Promise value
}.

(** [response.ok]. *)
Definition ok (r : Response) : bool :=
  (200 <=? status r) && (status r <=? 299).

(** What a handler does to the world outside its own state. *)
Inductive event : Type :=
| Fetch (url : jsstring) (init : RequestInit)
| ConsoleError (label : jsstring) (err : exn)
| PreventDefault.

Definition is_fetch (ev : event) : bool :=
  match ev with Fetch _ _ => true | _ => false end.

(** The number of outbound HTTP calls in a trace. *)
Definition fetch_count (t : list event) : nat :=
  List.length (filter is_fetch t).

(** ** The handler monad

    An [async] function over a state [St]: it reads the world it runs in,
    updates the state, records its events in order, and returns or throws.
    At each [await] other handlers of the event loop may run; what they do
    to the state is [interleaved]. *)
Section Monad.
Context {St : Type}.

Record World : Type := {
  network : jsstring -> RequestInit -> Promise Response;
  interleaved : St -> St
}.

Definition M (A : Type) : Type :=
  World -> St -> result A * St * list event.

Definition ret {A} (a : A) : M A := fun _ s => (inr a, s, []).

Definition bind {A B} (m : M A) (f : A -> M B) : M B :=
  fun w s =>
    let '(r, s1, t1) := m w s in
    match r with
    | inl e => (inl e, s1, t1)
    | inr a => let '(r2, s2, t2) := f a w s1 in (r2, s2, t1 ++ t2)
    end.

Definition throw {A} (e : exn) : M A := fun _ s => (inl e, s, []).

(** [try { m } catch (e) { h e }]. *)
Definition try_catch {A} (m : M A) (h : exn -> M A) : M A :=
  fun w s =>
    let '(r, s1, t1) := m w s in
    match r with
    | inl e => let '(r2, s2, t2) := h e w s1 in (r2, s2, t1 ++ t2)
    | inr a => (inr a, s1, t1)
    end.

(** An expression that may throw. *)
Definition lift {A} (r : result A) : M A := fun _ s => (r, s, []).

Definition emit (ev : event) : M unit := fun _ s => (inr tt, s, [ev]).

Definition modify (f : St -> St) : M unit := fun _ s => (inr tt, f s, []).

(** [await p]: the handler is suspended, the rest of the event loop runs,
    and the handler resumes with what the promise settled to. *)
Definition await {A} (p : M (Promise A)) : M A :=
  bind p (fun settled => fun w s => (settled, interleaved w s, [])).

(** [fetch(url, init)]. *)
Definition fetch (url : jsstring) (init : RequestInit) : M (Promise Response) :=
  fun w s => (inr (network w url init), s, [Fetch url init]).

(** [response.json()]. *)
Definition json (r : Response) : M (Promise value) := ret (parsed r).

(** [console.error(label, err)]. *)
Definition console_error (label : jsstring) (err : exn) : M unit :=
  emit (ConsoleError label err).
End Monad.

Arguments World : clear implicits.
Arguments M : clear implicits.

End JS.

Declare Scope js_scope.
Delimit Scope js_scope with js_m.
Notation "x <- m ;; k" := (JS.bind m (fun x => k))
  (at level 61, m at next level, right associativity) : js_scope.
Notation "m ;; k" := (JS.bind m (fun _ => k))
  (at level 61, right associativity) : js_scope.

(* ===================================================================== *)
(** * src/app/api/chat/route.ts *)
(* ===================================================================== *)

Module Route.
Import JS.
#[local] Open Scope js_scope.

(** A [NextRequest], by what [request.json()] settles to. *)
Record NextRequest : Type := { request_parsed : Promise value }.

(** A response of the endpoint, by its status and by its body as a reader
    of the response parses it. *)
Record NextResponse : Type := { response_body : value; response_status : N }.

(** [NextResponse.json(body, { status })]: the body is sent as the text
    that [JSON.stringify] makes of it. *)
Definition NextResponse_json (body : value) (init_status : option N)
  : NextResponse :=
  {| response_body := through_JSON body;
     response_status := match init_status with Some s => s | None => 200 end |}.

(** The relay keeps no state between or during calls. *)
Definition Handler (A : Type) : Type := M unit A.

Definition request_json (request : NextRequest) : Handler (Promise value) :=
  ret (request_parsed request).

Definition newline : jsstring := [10].

(** [data.candidates?.[0]?.content?.parts?.[0]?.text] *)
Definition candidate_text (data : value) : result value :=
  opt (opt (opt (opt (opt (Get data (js "candidates"))
                          Get0)
                     (fun c => Get c (js "content")))
                (fun c => Get c (js "parts")))
           Get0)
      (fun p => Get p (js "text")).

(** [errorData.error?.message] *)
Definition error_message (errorData : value) : result value :=
  opt (Get errorData (js "error")) (fun e => Get e (js "message")).

Definition validation_error : NextResponse :=
  NextResponse_json
    (VObj [(js "success", VBool false);
           (js "error", VStr (js "Query and subject are required"))])
    (Some 400).

Definition provider_error : NextResponse :=
  NextResponse_json
    (VObj [(js "success", VBool false);
           (js "error", VStr (js "Failed to get response from AI assistant"))])
    (Some 500).

Definition answer (text : value) : NextResponse :=
  NextResponse_json
    (VObj [(js "success", VBool true); (js "response", text)])
    None.

(** The request's body parsed to [b], and destructuring [b] gave a truthy
    [query] and a truthy [subject]: the request passes line 7. *)
Definition well_formed (b query subject : value) : Prop :=
  destructure2 b (js "query") (js "subject") = inr (query, subject)
  /\ ToBoolean query = true /\ ToBoolean subject = true.

(** The provider call threw, or came back with a status outside 2xx. *)
Definition call_failed (p : Promise Response) : bool :=
  match p with
  | inl _ => true
  | inr r => negb (ok r)
  end.

Section Relay.
(** The runtime's built-ins, [process.env.GEMINI_API_KEY], and the string
    literal that line 15 falls back to (its value plays no part in any
    property below and is not repeated here). *)
Variable rt : Builtins.
Variable GEMINI_API_KEY : option jsstring.
Variable fallback_key : jsstring.

Definition apiKey : jsstring :=
  match GEMINI_API_KEY with
  | Some k => if is_empty k then fallback_key else k
  | None => fallback_key
  end.

Definition baseURL : jsstring :=
  js "https://generativelanguage.googleapis.com/v1beta".

Definition endpoint : jsstring :=
  baseURL ++ js "/models/gemini-1.5-flash:generateContent".

(** The template literal of lines 19 to 25: the subject is converted
    first, then the question, and either conversion may throw. *)
Definition prompt (subject query : value) : result jsstring :=
  match ToString rt subject with
  | inl e => inl e
  | inr subject_text =>
      match ToString rt query with
      | inl e => inl e
      | inr query_text =>
          inr (js "You are a helpful study assistant for students. " ++ newline ++
               js "    Subject: " ++ subject_text ++ newline ++
               js "    Student Question: " ++ query_text ++ newline ++
               js "    " ++ newline ++
               js "    Please provide a clear, educational answer that helps the student understand the topic. " ++ newline ++
               js "    Keep your response informative but concise, suitable for a student learning environment." ++ newline ++
               js "    If the question is not related to the specified subject, gently redirect them to ask subject-relevant questions.")
      end
  end.

Definition requestBody (prompt : jsstring) : value :=
  VObj [(js "contents",
         VArr [VObj [(js "role", VStr (js "user"));
                     (js "parts",
                      VArr [VObj [(js "text", VStr prompt)]])]]);
        (js "generationConfig",
         VObj [(js "temperature", VNum 0.7%float);
               (js "maxOutputTokens", VNum 2000%float);
               (js "topP", VNum 1%float)])].

(** The second argument of the [fetch] of line 41, for a prompt. *)
Definition fetch_init (prompt : jsstring) : RequestInit :=
  {| method := js "POST";
     headers := [(js "Content-Type", js "application/json");
                 (js "x-goog-api-key", apiKey)];
     body := JSON_stringify rt (requestBody prompt) |}.

(** The same, for the subject and the question of a request.  [POST] makes
    the call only when the prompt builds; where it does not, no call is
    made and the prompt is taken empty here. *)
Definition provider_init (subject query : value) : RequestInit :=
  fetch_init (match prompt subject query with
              | inr text => text
              | inl _ => []
              end).

Definition POST (request : NextRequest) : Handler NextResponse :=
  try_catch
    (parsed_body <- await (request_json request) ;;
     fields <- lift (destructure2 parsed_body (js "query") (js "subject")) ;;
     let '(query, subject) := fields in
     if negb (ToBoolean query) || negb (ToBoolean subject) then
       ret validation_error
     else
       prompt_text <- lift (prompt subject query) ;;
       response <- await (fetch endpoint (fetch_init prompt_text)) ;;
       (if negb (ok response) then
          errorData <- await (json response) ;;
          detail <- lift (error_message errorData) ;;
          shown <- lift (ToString rt (or_else detail
                                              (VStr (statusText response)))) ;;
          throw (Error (js "Google API error: " ++ shown))
        else ret tt) ;;
       data <- await (json response) ;;
       extracted <- lift (candidate_text data) ;;
       let text := or_else extracted (VStr (js "No response received")) in
       ret (answer text))
    (fun error =>
       console_error (js "Chat API Error:") error ;;
       ret provider_error).

(** One call of the endpoint: what the client gets (or what escapes the
    handler) and what the handler did meanwhile. *)
Definition serve (w : World unit) (request : NextRequest)
  : result NextResponse * list event :=
  let '(r, _, t) := POST request w tt in (r, t).
End Relay.

End Route.

(* ===================================================================== *)
(** * src/components/ui/FloatingChat.tsx *)
(* ===================================================================== *)

Module FloatingChat.
Import JS.
#[local] Open Scope js_scope.

(** The five [useState] cells of the component.  [response] holds whatever
    [setResponse] was given, which for [data.response] is any parsed value. *)
Record WidgetState : Type := {
  isOpen : bool;
  query : jsstring;
  subject : jsstring;
  response : value;
  loading : bool
}.

Definition initial : WidgetState :=
  {| isOpen := false; query := []; subject := [];
     response := VStr []; loading := false |}.

Definition Handler (A : Type) : Type := M WidgetState A.

Definition setIsOpen (b : bool) : Handler unit :=
  modify (fun s => {| isOpen := b; query := query s; subject := subject s;
                      response := response s; loading := loading s |}).
Definition setQuery (q : jsstring) : Handler unit :=
  modify (fun s => {| isOpen := isOpen s; query := q; subject := subject s;
                      response := response s; loading := loading s |}).
Definition setSubject (x : jsstring) : Handler unit :=
  modify (fun s => {| isOpen := isOpen s; query := query s; subject := x;
                      response := response s; loading := loading s |}).
Definition setResponse (r : value) : Handler unit :=
  modify (fun s => {| isOpen := isOpen s; query := query s; subject := subject s;
                      response := r; loading := loading s |}).
Definition setLoading (b : bool) : Handler unit :=
  modify (fun s => {| isOpen := isOpen s; query := query s; subject := subject s;
                      response := response s; loading := b |}).

Definition subjects : list jsstring :=
  [js "Mathematics"; js "Physics"; js "Chemistry"; js "Biology";
   js "Computer Science"; js "English"; js "History"; js "Geography";
   js "General"].

Definition failure_message : jsstring :=
  js "Sorry, I encountered an error. Please try again.".

Definition preventDefault : Handler unit := emit PreventDefault.

Section Widget.
Variable rt : Builtins.

Definition chat_init (query subject : jsstring) : RequestInit :=
  {| method := js "POST";
     headers := [(js "Content-Type", js "application/json")];
     body := JSON_stringify rt
               (VObj [(js "query", VStr query); (js "subject", VStr subject)]) |}.

(** [handleSubmit], closed over the [query] and [subject] of the render
    that created it. *)
Definition handleSubmit (query subject : jsstring) : Handler unit :=
  preventDefault ;;
  if is_empty (trim query) || is_empty subject then ret tt
  else
    setLoading true ;;
    setResponse (VStr []) ;;
    try_catch
      (res <- await (fetch (js "/api/chat") (chat_init query subject)) ;;
       data <- await (json res) ;;
       success <- lift (Get data (js "success")) ;;
       if ToBoolean success then
         answer <- lift (Get data (js "response")) ;;
         setResponse answer
       else
         setResponse (VStr failure_message))
      (fun error => setResponse (VStr failure_message)) ;;
    setLoading false.

(** The form's [onSubmit], fired on the state that is on screen. *)
Definition submit (w : World WidgetState) (s : WidgetState)
  : result unit * WidgetState * list event :=
  handleSubmit (query s) (subject s) w s.
End Widget.

Definition clearChat : Handler unit :=
  setQuery [] ;;
  setResponse (VStr []) ;;
  setSubject [].

(** The Clear button's [onClick]. *)
Definition clear (w : World WidgetState) (s : WidgetState)
  : result unit * WidgetState * list event :=
  clearChat w s.

(** The floating button's [onClick]. *)
Definition toggle (s : WidgetState) : Handler unit := setIsOpen (negb (isOpen s)).

(** [disabled] of the submit button. *)
Definition submit_disabled (s : WidgetState) : bool :=
  loading s || is_empty (trim (query s)) || is_empty (subject s).

(** What React makes of a value given as a child: a string or a number is
    text; true, false, null and undefined are nothing; an array is its
    elements in order; a plain object is refused with an exception, which
    is [None] here. *)
Fixpoint child_texts (r : value) : option (list value) :=
  match r with
  | VStr _ | VNum _ => Some [r]
  | VUndefined | VNull | VBool _ => Some []
  | VObj _ => None
  | VArr elems =>
      (fix each (l : list value) : option (list value) :=
         match l with
         | [] => Some []
         | x :: rest =>
             match child_texts x, each rest with
             | Some a, Some b => Some (a ++ b)
             | _, _ => None
             end
         end) elems
  end.

(** What the panel renders below the form: nothing, the spinner, or the
    response box.  The box holds [{response}]: the text of a string or of a
    number ([Shown]), the texts of the elements of an array or nothing at
    all for [true] ([Texts]); for a plain object the render throws
    ([Broken]). *)
Inductive ResponseArea : Type :=
| Nothing
| Thinking
| Shown (r : value)
| Texts (leaves : list value)
| Broken.

Definition response_area (s : WidgetState) : ResponseArea :=
  if ToBoolean (response s) || loading s then
    if loading s then Thinking
    else match response s with
         | VStr _ | VNum _ => Shown (response s)
         | r => match child_texts r with
                | Some leaves => Texts leaves
                | None => Broken
                end
         end
  else Nothing.

(** The phase of the spec's widget state machine.  The component keeps no
    such field: a call is in flight exactly while [loading] is set, and a
    settled call is told from an idle widget, and a failure from an answer,
    only by what is on screen.  A settled call whose response is not the
    failure message counts as answered, whatever React makes of the
    response. *)
Inductive Phase : Type := Idle | Pending | Answered | Failed.

Definition phase (s : WidgetState) : Phase :=
  match response_area s with
  | Nothing => Idle
  | Thinking => Pending
  | Shown (VStr t) => if jsstring_eqb t failure_message then Failed else Answered
  | Shown _ | Texts _ | Broken => Answered
  end.


End FloatingChat.

(* ===================================================================== *)
(** * Sample inputs *)
(* ===================================================================== *)

Module Sample.
Import JS.

(** Stand-ins for the runtime's built-ins; no result below depends on what
    they print. *)
Definition rt : Builtins :=
  {| Number_toString := fun _ => js "0";
     JSON_stringify := fun v =>
       match v with VObj _ => js "{}" | _ => js "null" end;
     conversion_message := js "Cannot convert object to primitive value" |}.

(** The body the provider sends for one candidate with the given text. *)
Definition reply (text : value) : value :=
  VObj [(js "candidates",
         VArr [VObj [(js "content",
                      VObj [(js "parts", VArr [VObj [(js "text", text)]]);
                            (js "role", VStr (js "model"))])]])].

Definition respond {St} (r : Promise Response) : World St :=
  {| network := fun _ _ => r; interleaved := fun s => s |}.

Definition http (code : N) (text : string) (payload : value) : Promise Response :=
  inr {| status := code; statusText := js text; parsed := inr payload |}.

Definition unreachable : Promise Response :=
  inl (Thrown (js "TypeError") (js "fetch failed")).

Definition ask (query subject : value) : Route.NextRequest :=
  {| Route.request_parsed :=
       inr (VObj [(js "query", query); (js "subject", subject)]) |}.

Definition typed (query subject : string) : FloatingChat.WidgetState :=
  {| FloatingChat.isOpen := true;
     FloatingChat.query := js query;
     FloatingChat.subject := js subject;
     FloatingChat.response := VStr [];
     FloatingChat.loading := false |}.

(** The widget while a call is in flight. *)
Definition waiting : FloatingChat.WidgetState :=
  {| FloatingChat.isOpen := true;
     FloatingChat.query := js "What is inertia?";
     FloatingChat.subject := js "Physics";
     FloatingChat.response := VStr [];
     FloatingChat.loading := true |}.

End Sample.

(* ===================================================================== *)
(** * The widget and the relay side by side *)
(* ===================================================================== *)

Module Wire.
Import JS.

(** The object [handleSubmit] hands to [JSON.stringify] (line 37). *)
Definition chat_payload (query subject : jsstring) : value :=
  VObj [(js "query", VStr query); (js "subject", VStr subject)].

(** The state [handleSubmit] has written when it suspends on [fetch]
    (lines 28 and 29 done). *)
Definition pending (s : FloatingChat.WidgetState) : FloatingChat.WidgetState :=
  {| FloatingChat.isOpen := FloatingChat.isOpen s;
     FloatingChat.query := FloatingChat.query s;
     FloatingChat.subject := FloatingChat.subject s;
     FloatingChat.response := VStr [];
     FloatingChat.loading := true |}.

(** The relay's answer reached the widget: the [Response] the widget's
    [fetch] resolved to carries the status that [POST] returned, and its
    [json()] reads the body that [POST] sent (what [JSON.stringify] made of
    it, as [Route.NextResponse_json] records). *)
Definition delivered (sent : Route.NextResponse) (got : Response) : Prop :=
  status got = Route.response_status sent
  /\ parsed got = inr (Route.response_body sent).

(** A state in which only [response] and [loading] are rewritten: [loading]
    is cleared and [response] is [r]. *)
Definition settle (mid : FloatingChat.WidgetState) (r : value)
  : FloatingChat.WidgetState :=
  {| FloatingChat.isOpen := FloatingChat.isOpen mid;
     FloatingChat.query := FloatingChat.query mid;
     FloatingChat.subject := FloatingChat.subject mid;
     FloatingChat.response := r;
     FloatingChat.loading := false |}.

(** A world in which the relay answers [r] and the user presses Clear while
    the call is in flight. *)
Definition cleared_meanwhile (r : Promise Response)
  : World FloatingChat.WidgetState :=
  {| network := fun _ _ => r;
     interleaved := fun x =>
       snd (fst (FloatingChat.clear (Sample.respond r) x)) |}.

(** The [Response] that carries a [NextResponse] to the browser. *)
Definition carried (sent : Route.NextResponse) : Promise Response :=
  inr {| status := Route.response_status sent;
         statusText := [];
         parsed := inr (Route.response_body sent) |}.

(** The text between the subject and the question in the prompt
    (lines 20 and 21). *)
Definition question_label : jsstring :=
  Route.newline ++ js "    Student Question: ".

End Wire.

(* ===================================================================== *)
(** * src/app/admin/students/page.tsx *)
(* ===================================================================== *)

Module Admin.
Import JS.

(** Built-ins of the runtime that the admin pages use and that are not
    modelled: Unicode lower-casing, the local date text of a date string
    ([new Date(text).toLocaleDateString()]), the present instant as ISO
    text ([new Date().toISOString()]), and the engine's message for a
    property read of null or undefined. *)
Record Host : Type := {
  toLowerCase : jsstring -> jsstring;
  toLocaleDateString : jsstring -> jsstring;
  now_toISOString : jsstring;
  null_read_message : jsstring
}.

(** [s.startsWith(t)] and [s.includes(t)] on code units. *)
Fixpoint startsWith (s t : jsstring) {struct t} : bool :=
  match t, s with
  | [], _ => true
  | _ :: _, [] => false
  | c :: t', d :: s' => (c =? d) && startsWith s' t'
  end.

Fixpoint includes (s t : jsstring) : bool :=
  startsWith s t
  || match s with
     | [] => false
     | _ :: s' => includes s' t
     end.

(** [parts.join(sep)] on an array of strings. *)
Fixpoint join (sep : jsstring) (parts : list jsstring) : jsstring :=
  match parts with
  | [] => []
  | p :: rest =>
      match rest with
      | [] => p
      | _ :: _ => p ++ sep ++ join sep rest
      end
  end.

(** [s.split(c)[0]] for a one-unit separator: what precedes the first [c]. *)
Fixpoint before (c : N) (s : jsstring) : jsstring :=
  match s with
  | [] => []
  | d :: rest => if d =? c then [] else d :: before c rest
  end.

(** How often a code unit occurs in a string. *)
Definition occurrences (c : N) (s : jsstring) : nat :=
  List.length (filter (N.eqb c) s).

(** [t] occurs in [s] as a contiguous run. *)
Definition occurs (t s : jsstring) : Prop :=
  exists pre post, s = pre ++ t ++ post.

(** ** The students list *)

(** A [StudentWithStats], by the fields the page computes with.  The
    interface extends [User] of [@/types/database], which is not among the
    sources: of its fields the page uses [name] and [email] as strings,
    [phone] as a string that may be missing (it is tested before use) and
    [created_at] as the text of a date. *)
Record Student : Type := {
  name : jsstring;
  email : jsstring;
  phone : option jsstring;
  created_at : jsstring;
  enrolled_courses : float;
  completed_courses : float;
  avg_progress : float;
  last_activity : option jsstring;
  total_modules : float;
  completed_modules : float
}.

Inductive FilterType : Type := all | enrolled | not_enrolled.

(** [x || fallback] and [x ? f(x) : fallback] on a string that may be
    missing: a missing and an empty string are both falsy. *)
Definition truthy_text (x : option jsstring) : option jsstring :=
  match x with
  | Some t => if is_empty t then None else Some t
  | None => None
  end.

(** [s.enrolled_courses > 0] and [s.enrolled_courses === 0]. *)
Definition is_enrolled (s : Student) : bool :=
  PrimFloat.ltb 0%float (enrolled_courses s).
Definition is_not_enrolled (s : Student) : bool :=
  PrimFloat.eqb (enrolled_courses s) 0%float.

(** The counters of the stats cards and of the filter buttons. *)
Definition enrolled_count (students : list Student) : nat :=
  List.length (filter is_enrolled students).
Definition not_enrolled_count (students : list Student) : nat :=
  List.length (filter is_not_enrolled students).

Definition getProgressColor (progress : float) : jsstring :=
  if PrimFloat.leb 80%float progress then js "text-green-600"
  else if PrimFloat.leb 50%float progress then js "text-yellow-600"
  else js "text-red-600".

Definition getProgressBgColor (progress : float) : jsstring :=
  if PrimFloat.leb 80%float progress then js "bg-green-100 border-green-200"
  else if PrimFloat.leb 50%float progress then js "bg-yellow-100 border-yellow-200"
  else js "bg-red-100 border-red-200".

(** What [handleExportCSV] hands to the browser: a Blob of [content] and
    [type], offered for download under [filename] through a hidden link
    that is clicked and removed. *)
Record Download : Type := {
  content : jsstring;
  type : jsstring;
  filename : jsstring
}.

Definition csvHeaders : list jsstring :=
  [js "Name"; js "Email"; js "Phone"; js "Enrolled Courses";
   js "Completed Courses"; js "Average Progress"; js "Completed Modules";
   js "Total Modules"; js "Last Activity"; js "Created Date"].

Definition quote : N := 34.
Definition comma : N := 44.
Definition line_feed : N := 10.

Section StudentsPage.
Variable rt : Builtins.
Variable host : Host.

(** The predicate of the first [filter] of [filterStudents]. *)
Definition matches_search (searchTerm : jsstring) (student : Student) : bool :=
  includes (toLowerCase host (name student)) (toLowerCase host searchTerm)
  || includes (toLowerCase host (email student)) (toLowerCase host searchTerm)
  || match truthy_text (phone student) with
     | Some p => includes (toLowerCase host p) (toLowerCase host searchTerm)
     | None => false
     end.

(** [filterStudents]: the list it passes to [setFilteredStudents]. *)
Definition filterStudents (students : list Student) (searchTerm : jsstring)
    (filterType : FilterType) : list Student :=
  let filtered := filter (matches_search searchTerm) students in
  match filterType with
  | enrolled => filter is_enrolled filtered
  | not_enrolled => filter is_not_enrolled filtered
  | all => filtered
  end.

(** One element of [csvData]. *)
Definition csv_cells (student : Student) : list jsstring :=
  [name student;
   email student;
   match truthy_text (phone student) with Some p => p | None => js "N/A" end;
   Number_toString rt (enrolled_courses student);
   Number_toString rt (completed_courses student);
   Number_toString rt (avg_progress student) ++ js "%";
   Number_toString rt (completed_modules student);
   Number_toString rt (total_modules student);
   match truthy_text (last_activity student) with
   | Some d => toLocaleDateString host d
   | None => js "No activity"
   end;
   toLocaleDateString host (created_at student)].

Definition csv_row (cells : list jsstring) : jsstring :=
  join [comma] (map (fun cell => [quote] ++ cell ++ [quote]) cells).

Definition csvContent (filteredStudents : list Student) : jsstring :=
  join [line_feed]
    (join [comma] csvHeaders :: map csv_row (map csv_cells filteredStudents)).

Definition handleExportCSV (filteredStudents : list Student) : option Download :=
  match filteredStudents with
  | [] => None
  | _ :: _ =>
      Some {| content := csvContent filteredStudents;
              type := js "text/csv;charset=utf-8;";
              filename := js "students-" ++
                          before 84 (now_toISOString host) ++ js ".csv" |}
  end.

(** [disabled] of the Export button. *)
Definition export_disabled (filteredStudents : list Student) : bool :=
  match filteredStudents with [] => true | _ :: _ => false end.
End StudentsPage.

(** ** The reset-password dialog of the student page *)

Record PasswordForm : Type := {
  newPassword : jsstring;
  confirmPassword : jsstring
}.

Record ShowPasswords : Type := { show_new : bool; show_confirm : bool }.

Inductive Field : Type := field_new | field_confirm.

(** The [useState] cells of [StudentDetailPage] that the dialog reads or
    writes. *)
Record DialogState : Type := {
  showPasswordDialog : bool;
  passwordForm : PasswordForm;
  passwordLoading : bool;
  passwordError : jsstring;
  passwordSuccess : jsstring;
  showPasswords : ShowPasswords
}.

(** The [init] of the page's [fetch] calls. *)
Record FetchInit : Type := {
  method : option jsstring;
  headers : list (jsstring * jsstring);
  credentials : option jsstring;
  body : option jsstring
}.

Inductive effect : Type :=
| Fetched (url : jsstring) (init : FetchInit)
| DefaultPrevented
| Timer (delay : N) (callback : DialogState -> DialogState).

Definition is_request (ev : effect) : bool :=
  match ev with Fetched _ _ => true | _ => false end.

Record Net : Type := {
  answer_to : jsstring -> FetchInit -> Promise Response;
  meanwhile : DialogState -> DialogState
}.

(** A handler of the page: as [JS.M], over the dialog's state and the
    page's effects. *)
Definition H (A : Type) : Type :=
  Net -> DialogState -> result A * DialogState * list effect.

Definition ret {A} (a : A) : H A := fun _ s => (inr a, s, []).

Definition bind {A B} (m : H A) (f : A -> H B) : H B :=
  fun w s =>
    let '(r, s1, t1) := m w s in
    match r with
    | inl e => (inl e, s1, t1)
    | inr a => let '(r2, s2, t2) := f a w s1 in (r2, s2, t1 ++ t2)
    end.

Definition throw {A} (e : exn) : H A := fun _ s => (inl e, s, []).

Definition lift {A} (r : result A) : H A := fun _ s => (r, s, []).

Definition emit (ev : effect) : H unit := fun _ s => (inr tt, s, [ev]).

Definition modify (f : DialogState -> DialogState) : H unit :=
  fun _ s => (inr tt, f s, []).

Definition await {A} (p : H (Promise A)) : H A :=
  bind p (fun settled => fun w s => (settled, meanwhile w s, [])).

Definition fetch (url : jsstring) (init : FetchInit) : H (Promise Response) :=
  fun w s => (inr (answer_to w url init), s, [Fetched url init]).

Definition json (r : Response) : H (Promise value) := ret (parsed r).

(** [try { m } catch (e) { h e } finally { f }], for a handler [h] and a
    finalizer [f] that return normally. *)
Definition try_catch_finally {A} (m : H A) (h : exn -> H A) (f : H unit) : H A :=
  fun w s =>
    let '(r, s1, t1) := m w s in
    let '(r2, s2, t2) :=
      match r with
      | inl e => h e w s1
      | inr a => (inr a, s1, [])
      end in
    let '(r3, s3, t3) := f w s2 in
    (match r3 with inl e => inl e | inr _ => r2 end, s3, t1 ++ t2 ++ t3).

Declare Scope admin_scope.
Notation "x <- m ;; k" := (bind m (fun x => k))
  (at level 61, m at next level, right associativity) : admin_scope.
Notation "m ;; k" := (bind m (fun _ => k))
  (at level 61, right associativity) : admin_scope.
#[local] Open Scope admin_scope.

Definition setShowPasswordDialog (b : bool) (s : DialogState) : DialogState :=
  {| showPasswordDialog := b; passwordForm := passwordForm s;
     passwordLoading := passwordLoading s; passwordError := passwordError s;
     passwordSuccess := passwordSuccess s; showPasswords := showPasswords s |}.
Definition setPasswordForm (f : PasswordForm) (s : DialogState) : DialogState :=
  {| showPasswordDialog := showPasswordDialog s; passwordForm := f;
     passwordLoading := passwordLoading s; passwordError := passwordError s;
     passwordSuccess := passwordSuccess s; showPasswords := showPasswords s |}.
Definition setPasswordLoading (b : bool) (s : DialogState) : DialogState :=
  {| showPasswordDialog := showPasswordDialog s; passwordForm := passwordForm s;
     passwordLoading := b; passwordError := passwordError s;
     passwordSuccess := passwordSuccess s; showPasswords := showPasswords s |}.
Definition setPasswordError (m : jsstring) (s : DialogState) : DialogState :=
  {| showPasswordDialog := showPasswordDialog s; passwordForm := passwordForm s;
     passwordLoading := passwordLoading s; passwordError := m;
     passwordSuccess := passwordSuccess s; showPasswords := showPasswords s |}.
Definition setPasswordSuccess (m : jsstring) (s : DialogState) : DialogState :=
  {| showPasswordDialog := showPasswordDialog s; passwordForm := passwordForm s;
     passwordLoading := passwordLoading s; passwordError := passwordError s;
     passwordSuccess := m; showPasswords := showPasswords s |}.
Definition setShowPasswords (f : ShowPasswords -> ShowPasswords)
    (s : DialogState) : DialogState :=
  {| showPasswordDialog := showPasswordDialog s; passwordForm := passwordForm s;
     passwordLoading := passwordLoading s; passwordError := passwordError s;
     passwordSuccess := passwordSuccess s;
     showPasswords := f (showPasswords s) |}.

(** [setShowPasswords(prev => ({ ...prev, [field]: !prev[field] }))] *)
Definition togglePasswordVisibility (field : Field) : H unit :=
  modify (setShowPasswords (fun prev =>
    match field with
    | field_new =>
        {| show_new := negb (show_new prev); show_confirm := show_confirm prev |}
    | field_confirm =>
        {| show_new := show_new prev; show_confirm := negb (show_confirm prev) |}
    end)).

(** The callback of the [setTimeout] of line 595. *)
Definition close_dialog (s : DialogState) : DialogState :=
  setPasswordSuccess [] (setShowPasswordDialog false s).

(** The state in which [handleResetPassword] starts its [try] (lines 572
    to 574 done). *)
Definition submitted (s : DialogState) : DialogState :=
  setPasswordSuccess [] (setPasswordError [] (setPasswordLoading true s)).

(** The state in which a refused submission ends: the message is shown and
    nothing else has changed. *)
Definition refused (s : DialogState) (message : jsstring) : DialogState :=
  {| showPasswordDialog := showPasswordDialog s;
     passwordForm := passwordForm s;
     passwordLoading := false;
     passwordError := message;
     passwordSuccess := [];
     showPasswords := showPasswords s |}.

Section ResetPassword.
Variable rt : Builtins.
Variable host : Host.

(** [error instanceof Error]: every exception of the model is an [Error]
    object. *)
Definition instanceof_Error (e : exn) : bool := true.

(** [error.message]. *)
Definition message_of (e : exn) : jsstring :=
  match e with
  | Error m => m
  | TypeError => null_read_message host
  | Thrown _ m => m
  end.

Definition reset_url (studentId : jsstring) : jsstring :=
  js "/api/admin/students/" ++ studentId ++ js "/reset-password".

Definition reset_init (form : PasswordForm) : FetchInit :=
  {| method := Some (js "POST");
     headers := [(js "Content-Type", js "application/json")];
     credentials := Some (js "include");
     body := Some (JSON_stringify rt
                     (VObj [(js "newPassword", VStr (newPassword form))])) |}.

(** [handleResetPassword], closed over the [passwordForm] and [studentId]
    of the render that created it. *)
Definition handleResetPassword (form : PasswordForm) (studentId : jsstring)
  : H unit :=
  emit DefaultPrevented ;;
  modify (setPasswordLoading true) ;;
  modify (setPasswordError []) ;;
  modify (setPasswordSuccess []) ;;
  try_catch_finally
    ((if is_empty (newPassword form) || is_empty (confirmPassword form)
      then throw (Error (js "Both password fields are required"))
      else ret tt) ;;
     (if Nat.ltb (List.length (newPassword form)) 6
      then throw (Error (js "Password must be at least 6 characters long"))
      else ret tt) ;;
     (if negb (jsstring_eqb (newPassword form) (confirmPassword form))
      then throw (Error (js "Passwords do not match"))
      else ret tt) ;;
     response <- await (fetch (reset_url studentId) (reset_init form)) ;;
     result <- await (json response) ;;
     success <- lift (Get result (js "success")) ;;
     (if negb (ToBoolean success) then
        error <- lift (Get result (js "error")) ;;
        message <- lift (ToString rt
                           (or_else error
                              (VStr (js "Failed to reset password")))) ;;
        throw (Error message)
      else ret tt) ;;
     modify (setPasswordSuccess (js "Password reset successfully!")) ;;
     modify (setPasswordForm {| newPassword := []; confirmPassword := [] |}) ;;
     emit (Timer 2000 close_dialog))
    (fun error =>
       modify (setPasswordError
                 (if instanceof_Error error then message_of error
                  else js "Failed to reset password")))
    (modify (setPasswordLoading false)).

(** The dialog form's [onSubmit], fired on the state that is on screen. *)
Definition reset (w : Net) (studentId : jsstring) (s : DialogState)
  : result unit * DialogState * list effect :=
  handleResetPassword (passwordForm s) studentId w s.
End ResetPassword.

End Admin.

Module AdminSample.
Import JS.

(** Lower-casing of the ASCII letters, a stand-in for [toLowerCase]. *)
Definition ascii_lower (c : N) : N :=
  if (65 <=? c) && (c <=? 90) then c + 32 else c.

Definition host : Admin.Host :=
  {| Admin.toLowerCase := map ascii_lower;
     Admin.toLocaleDateString := Admin.before 84;
     Admin.now_toISOString := js "2025-03-01T09:30:00.000Z";
     Admin.null_read_message := js "Cannot read properties of null" |}.

Definition student (name email : string) (phone : option string)
    (courses : float) : Admin.Student :=
  {| Admin.name := js name;
     Admin.email := js email;
     Admin.phone := option_map js phone;
     Admin.created_at := js "2024-09-01T08:00:00.000Z";
     Admin.enrolled_courses := courses;
     Admin.completed_courses := 0%float;
     Admin.avg_progress := 40%float;
     Admin.last_activity := None;
     Admin.total_modules := 12%float;
     Admin.completed_modules := 3%float |}.

Definition roster : list Admin.Student :=
  [student "Ann Lee" "ann@example.org" (Some "555-0101"%string) 2%float;
   student "Bob Roy" "bob@example.org" None 0%float].

Definition dialog (new confirm : string) : Admin.DialogState :=
  {| Admin.showPasswordDialog := true;
     Admin.passwordForm :=
       {| Admin.newPassword := js new; Admin.confirmPassword := js confirm |};
     Admin.passwordLoading := false;
     Admin.passwordError := [];
     Admin.passwordSuccess := [];
     Admin.showPasswords :=
       {| Admin.show_new := false; Admin.show_confirm := false |} |}.

Definition server (r : Promise Response) : Admin.Net :=
  {| Admin.answer_to := fun _ _ => r; Admin.meanwhile := fun s => s |}.

End AdminSample.

(* ===================================================================== *)
(** * Properties of the model of JavaScript *)
(* ===================================================================== *)

Import JS.

Lemma jsstring_eqb_eq (a b : jsstring) : jsstring_eqb a b = true <-> a = b.
Proof.
  revert b; induction a as [|x a IH]; intros [|y b]; simpl;
    try (split; intro H; [discriminate | inversion H]); try tauto.
  rewrite andb_true_iff, N.eqb_eq, IH.
  split; [intros [-> ->]; reflexivity | intros H; inversion H; auto].
Qed.

Lemma trimStart_nil_iff (s : jsstring) :
  trimStart s = [] <-> forallb is_whitespace s = true.
Proof.
  induction s as [|c s IH]; simpl; [tauto|].
  destruct (is_whitespace c); simpl; [exact IH|].
  split; discriminate.
Qed.

(** A string trims to nothing exactly when it holds only white space. *)
Lemma trim_nil_iff (s : jsstring) :
  trim s = [] <-> forallb is_whitespace s = true.
Proof.
  unfold trim. split.
  - intros H. apply (f_equal (@rev N)) in H. rewrite rev_involutive in H.
    simpl in H. apply trimStart_nil_iff in H.
    destruct (trimStart s) eqn:E; [apply trimStart_nil_iff; exact E|].
    exfalso.
    assert (Hw : is_whitespace n = true).
    { rewrite forallb_forall in H. apply H. rewrite <- in_rev. left; reflexivity. }
    clear H. induction s as [|c s IH]; simpl in E; [discriminate|].
    destruct (is_whitespace c) eqn:Ec; [auto|].
    inversion E; subst. congruence.
  - intros H. apply trimStart_nil_iff in H. rewrite H. reflexivity.
Qed.

Lemma is_empty_true (s : jsstring) : is_empty s = true <-> s = [].
Proof. destruct s; simpl; split; congruence. Qed.

Lemma or_else_truthy (a b : value) : ToBoolean a = true -> or_else a b = a.
Proof. unfold or_else. intros ->. reflexivity. Qed.

Lemma or_else_falsy (a b : value) : ToBoolean a = false -> or_else a b = b.
Proof. unfold or_else. intros ->. reflexivity. Qed.

(** Optional chaining never throws on its own. *)
Lemma opt_Get_defined (v : result value) (name : jsstring) :
  (exists x, v = inr x) -> exists y, opt v (fun c => Get c name) = inr y.
Proof.
  intros [x ->]. unfold opt. destruct x; simpl; eauto.
Qed.

Lemma opt_Get0_defined (v : result value) :
  (exists x, v = inr x) -> exists y, opt v Get0 = inr y.
Proof.
  intros [x ->]. unfold opt. destruct x; simpl; eauto.
Qed.

(** A value that went through JSON once is not changed by going through
    it again: what [NextResponse.json] sent is what [json()] reads. *)
Lemma through_JSON_keeps_defined (v : value) :
  v <> VUndefined -> through_JSON v <> VUndefined.
Proof.
  destruct v as [| |b|n|u|elems|props]; simpl; try congruence.
  intros _. destruct (PrimFloat.is_finite n); [destruct (PrimFloat.eqb n 0)|];
    discriminate.
Qed.

Lemma through_JSON_again (x : value) :
  x <> VUndefined ->
  through_JSON (through_JSON x) = through_JSON x ->
  match through_JSON x with
  | VUndefined => VNull
  | _ => through_JSON (through_JSON x)
  end = through_JSON x.
Proof.
  intros Hx E. pose proof (through_JSON_keeps_defined x Hx) as D.
  destruct (through_JSON x); try exact E. congruence.
Qed.

Lemma through_JSON_idempotent :
  forall v, through_JSON (through_JSON v) = through_JSON v.
Proof.
  fix IH 1. intros [| |b|n|u|elems|props]; try reflexivity.
  - simpl. destruct (PrimFloat.is_finite n) eqn:F; [|reflexivity].
    destruct (PrimFloat.eqb n 0) eqn:Z; [reflexivity|].
    simpl. rewrite F, Z. reflexivity.
  - simpl. f_equal. induction elems as [|x rest IHrest]; [reflexivity|].
    cbn [map]. f_equal; [|exact IHrest].
    pose proof (IH x) as E.
    destruct x;
      [reflexivity
      | apply through_JSON_again; [discriminate | exact E] ..].
  - simpl. f_equal. induction props as [|[k x] rest IHrest]; [reflexivity|].
    pose proof (IH x) as E.
    destruct x; [exact IHrest|..];
      match goal with
      | |- match through_JSON ?y with _ => _ end = _ =>
          pose proof (through_JSON_keeps_defined y ltac:(discriminate)) as D;
          destruct (through_JSON y);
          [congruence | rewrite E, IHrest; reflexivity ..]
      end.
Qed.

(** The extraction expression evaluates on every parsed document but a bare
    [null], on which the first, unguarded read throws. *)
Lemma candidate_text_evaluates (data : value) :
  is_nullish data = false -> exists t, Route.candidate_text data = inr t.
Proof.
  intros H. unfold Route.candidate_text.
  repeat first [apply opt_Get_defined | apply opt_Get0_defined].
  destruct data; simpl in *; try discriminate; eauto.
Qed.

Lemma candidate_text_nullish (data : value) :
  is_nullish data = true -> Route.candidate_text data = inl TypeError.
Proof. destruct data; simpl; try discriminate; reflexivity. Qed.

Lemma candidate_text_reply (text : value) :
  Route.candidate_text (Sample.reply text) = inr text.
Proof. destruct text; reflexivity. Qed.

(* ===================================================================== *)
(** * The relay *)
(* ===================================================================== *)

Ltac run_handler :=
  cbv beta iota zeta delta
    [Route.serve Route.POST Route.request_json Route.Handler
     FloatingChat.submit FloatingChat.handleSubmit FloatingChat.clear
     FloatingChat.clearChat FloatingChat.preventDefault FloatingChat.Handler
     FloatingChat.setLoading FloatingChat.setResponse FloatingChat.setQuery
     FloatingChat.setSubject FloatingChat.setIsOpen
     try_catch bind await fetch json lift ret throw console_error emit modify
     Route.request_parsed app negb orb andb].

Section RelayProperties.
Variable rt : Builtins.
Variable GEMINI_API_KEY : option jsstring.
Variable fallback_key : jsstring.
Variable w : World unit.

#[local] Abbreviation serve := (Route.serve rt GEMINI_API_KEY fallback_key w).
#[local] Abbreviation endpoint := Route.endpoint.
#[local] Abbreviation provider_init :=
  (Route.provider_init rt GEMINI_API_KEY fallback_key).
#[local] Abbreviation fetch_init :=
  (Route.fetch_init rt GEMINI_API_KEY fallback_key).
#[local] Abbreviation well_formed := Route.well_formed.
#[local] Abbreviation prompt := (Route.prompt rt).

Lemma provider_init_builds subject query text :
  prompt subject query = inr text ->
  provider_init subject query = fetch_init text.
Proof. unfold Route.provider_init. intros ->. reflexivity. Qed.

(** A string converts to itself, so a prompt always builds from strings. *)
Lemma prompt_of_strings (s q : jsstring) :
  exists text, prompt (VStr s) (VStr q) = inr text.
Proof. eexists. reflexivity. Qed.

(** When a conversion throws, the handler stops before [fetch]. *)
Lemma serve_prompt_throws b query subject e :
  well_formed b query subject ->
  prompt subject query = inl e ->
  serve {| Route.request_parsed := inr b |}
  = (inr Route.provider_error, [ConsoleError (js "Chat API Error:") e]).
Proof.
  intros (Hd & Hq & Hs) Hp.
  run_handler. rewrite Hd, Hq, Hs. run_handler. rewrite Hp. reflexivity.
Qed.

Ltac run_forwarded Hwf Hp Hn :=
  let Hd := fresh "Hd" in let Hq := fresh "Hq" in let Hs := fresh "Hs" in
  destruct Hwf as (Hd & Hq & Hs);
  rewrite (provider_init_builds _ _ _ Hp) in *;
  run_handler; rewrite Hd, Hq, Hs; run_handler; rewrite Hp; run_handler;
  rewrite Hn.

Lemma serve_fetch_throws b query subject text e :
  well_formed b query subject ->
  prompt subject query = inr text ->
  network w endpoint (provider_init subject query) = inl e ->
  serve {| Route.request_parsed := inr b |}
  = (inr Route.provider_error,
     [Fetch endpoint (provider_init subject query);
      ConsoleError (js "Chat API Error:") e]).
Proof.
  intros Hwf Hp Hn. run_forwarded Hwf Hp Hn. reflexivity.
Qed.

Lemma serve_not_ok_unparseable b query subject text r e :
  well_formed b query subject ->
  prompt subject query = inr text ->
  network w endpoint (provider_init subject query) = inr r ->
  ok r = false ->
  parsed r = inl e ->
  serve {| Route.request_parsed := inr b |}
  = (inr Route.provider_error,
     [Fetch endpoint (provider_init subject query);
      ConsoleError (js "Chat API Error:") e]).
Proof.
  intros Hwf Hp Hn Hok Hj. run_forwarded Hwf Hp Hn. rewrite Hok, Hj.
  reflexivity.
Qed.

Lemma serve_not_ok_unreadable b query subject text r errorData e :
  well_formed b query subject ->
  prompt subject query = inr text ->
  network w endpoint (provider_init subject query) = inr r ->
  ok r = false ->
  parsed r = inr errorData ->
  Route.error_message errorData = inl e ->
  serve {| Route.request_parsed := inr b |}
  = (inr Route.provider_error,
     [Fetch endpoint (provider_init subject query);
      ConsoleError (js "Chat API Error:") e]).
Proof.
  intros Hwf Hp Hn Hok Hj He. run_forwarded Hwf Hp Hn. rewrite Hok, Hj, He.
  reflexivity.
Qed.

Lemma serve_not_ok_unconvertible b query subject text r errorData detail e :
  well_formed b query subject ->
  prompt subject query = inr text ->
  network w endpoint (provider_init subject query) = inr r ->
  ok r = false ->
  parsed r = inr errorData ->
  Route.error_message errorData = inr detail ->
  ToString rt (or_else detail (VStr (statusText r))) = inl e ->
  serve {| Route.request_parsed := inr b |}
  = (inr Route.provider_error,
     [Fetch endpoint (provider_init subject query);
      ConsoleError (js "Chat API Error:") e]).
Proof.
  intros Hwf Hp Hn Hok Hj He Ht. run_forwarded Hwf Hp Hn.
  rewrite Hok, Hj, He. run_handler. rewrite Ht. reflexivity.
Qed.

(** What the server logs when the provider answers outside 2xx with a body
    whose message can be read and converted. *)
Lemma serve_not_ok_logs_detail b query subject text r errorData detail shown :
  well_formed b query subject ->
  prompt subject query = inr text ->
  network w endpoint (provider_init subject query) = inr r ->
  ok r = false ->
  parsed r = inr errorData ->
  Route.error_message errorData = inr detail ->
  ToString rt (or_else detail (VStr (statusText r))) = inr shown ->
  serve {| Route.request_parsed := inr b |}
  = (inr Route.provider_error,
     [Fetch endpoint (provider_init subject query);
      ConsoleError (js "Chat API Error:")
        (Error (js "Google API error: " ++ shown))]).
Proof.
  intros Hwf Hp Hn Hok Hj He Ht. run_forwarded Hwf Hp Hn.
  rewrite Hok, Hj, He. run_handler. rewrite Ht. reflexivity.
Qed.

(** The error that reaches [console.error] when the provider call fails:
    the exception of [fetch], of [json()], of reading the message or of
    converting it, or else the error built on line 52. *)
Definition logged (p : Promise Response) (err : exn) : Prop :=
  (forall e, p = inl e -> err = e)
  /\ (forall r e, p = inr r -> parsed r = inl e -> err = e)
  /\ (forall r errorData e,
        p = inr r -> parsed r = inr errorData ->
        Route.error_message errorData = inl e -> err = e)
  /\ (forall r errorData detail e,
        p = inr r -> parsed r = inr errorData ->
        Route.error_message errorData = inr detail ->
        ToString rt (or_else detail (VStr (statusText r))) = inl e ->
        err = e)
  /\ (forall r errorData detail shown,
        p = inr r -> parsed r = inr errorData ->
        Route.error_message errorData = inr detail ->
        ToString rt (or_else detail (VStr (statusText r))) = inr shown ->
        err = Error (js "Google API error: " ++ shown)).

Lemma serve_call_failed b query subject text :
  well_formed b query subject ->
  prompt subject query = inr text ->
  Route.call_failed (network w endpoint (provider_init subject query)) = true ->
  exists err,
    serve {| Route.request_parsed := inr b |}
    = (inr Route.provider_error,
       [Fetch endpoint (provider_init subject query);
        ConsoleError (js "Chat API Error:") err])
    /\ logged (network w endpoint (provider_init subject query)) err.
Proof.
  intros Hwf Hp Hfail. unfold logged.
  destruct (network w endpoint (provider_init subject query)) as [e|r] eqn:Hn.
  { exists e. split; [exact (serve_fetch_throws _ _ _ _ _ Hwf Hp Hn)|].
    repeat split; intros; congruence. }
  simpl in Hfail. apply negb_true_iff in Hfail.
  destruct (parsed r) as [e|errorData] eqn:Hj.
  { exists e.
    split; [exact (serve_not_ok_unparseable _ _ _ _ _ _ Hwf Hp Hn Hfail Hj)|].
    repeat split; intros; congruence. }
  destruct (Route.error_message errorData) as [e|detail] eqn:He.
  { exists e.
    split; [exact (serve_not_ok_unreadable _ _ _ _ _ _ _ Hwf Hp Hn Hfail Hj He)|].
    repeat split; intros; congruence. }
  destruct (ToString rt (or_else detail (VStr (statusText r))))
    as [e|shown] eqn:Ht.
  { exists e.
    split; [exact (serve_not_ok_unconvertible _ _ _ _ _ _ _ _
                     Hwf Hp Hn Hfail Hj He Ht)|].
    repeat split; intros; congruence. }
  exists (Error (js "Google API error: " ++ shown)).
  split; [exact (serve_not_ok_logs_detail _ _ _ _ _ _ _ _
                   Hwf Hp Hn Hfail Hj He Ht)|].
  repeat split; intros; congruence.
Qed.

Lemma serve_not_ok b query subject text r :
  well_formed b query subject ->
  prompt subject query = inr text ->
  network w endpoint (provider_init subject query) = inr r ->
  ok r = false ->
  exists err,
    serve {| Route.request_parsed := inr b |}
    = (inr Route.provider_error,
       [Fetch endpoint (provider_init subject query);
        ConsoleError (js "Chat API Error:") err]).
Proof.
  intros Hwf Hp Hn Hok.
  destruct (serve_call_failed b query subject text Hwf Hp) as (err & E & _).
  { rewrite Hn. simpl. rewrite Hok. reflexivity. }
  exists err. exact E.
Qed.

Lemma serve_ok_unparseable b query subject text r e :
  well_formed b query subject ->
  prompt subject query = inr text ->
  network w endpoint (provider_init subject query) = inr r ->
  ok r = true ->
  parsed r = inl e ->
  serve {| Route.request_parsed := inr b |}
  = (inr Route.provider_error,
     [Fetch endpoint (provider_init subject query);
      ConsoleError (js "Chat API Error:") e]).
Proof.
  intros Hwf Hp Hn Hok Hj. run_forwarded Hwf Hp Hn. rewrite Hok, Hj.
  reflexivity.
Qed.

Lemma serve_ok_extraction_throws b query subject text r data e :
  well_formed b query subject ->
  prompt subject query = inr text ->
  network w endpoint (provider_init subject query) = inr r ->
  ok r = true ->
  parsed r = inr data ->
  Route.candidate_text data = inl e ->
  serve {| Route.request_parsed := inr b |}
  = (inr Route.provider_error,
     [Fetch endpoint (provider_init subject query);
      ConsoleError (js "Chat API Error:") e]).
Proof.
  intros Hwf Hp Hn Hok Hj He. run_forwarded Hwf Hp Hn. rewrite Hok, Hj, He.
  reflexivity.
Qed.

Lemma serve_ok b query subject text r data extracted :
  well_formed b query subject ->
  prompt subject query = inr text ->
  network w endpoint (provider_init subject query) = inr r ->
  ok r = true ->
  parsed r = inr data ->
  Route.candidate_text data = inr extracted ->
  serve {| Route.request_parsed := inr b |}
  = (inr (Route.answer
            (or_else extracted (VStr (js "No response received")))),
     [Fetch endpoint (provider_init subject query)]).
Proof.
  intros Hwf Hp Hn Hok Hj He. run_forwarded Hwf Hp Hn. rewrite Hok, Hj, He.
  reflexivity.
Qed.

Lemma status_200_ok (r : Response) : status r = 200 -> ok r = true.
Proof. unfold ok. intros ->. reflexivity. Qed.

Lemma serve_rejected b query subject :
  destructure2 b (js "query") (js "subject") = inr (query, subject) ->
  ToBoolean query = false \/ ToBoolean subject = false ->
  serve {| Route.request_parsed := inr b |}
  = (inr Route.validation_error, []).
Proof.
  intros Hd Hf. run_handler. rewrite Hd.
  destruct Hf as [H | H]; rewrite H;
    [reflexivity | destruct (ToBoolean query); reflexivity].
Qed.

(** C1 (as amended).  A request whose body parsed to a value other than
    null and whose [query] or [subject] is falsy (absent, null, the empty
    string; the question is not trimmed) is answered 400 with
    [{ success: false, error: 'Query and subject are required' }], and the
    handler does nothing else: no call leaves for the provider. *)
Theorem relay_rejects_missing_fields b query subject :
  destructure2 b (js "query") (js "subject") = inr (query, subject) ->
  ToBoolean query = false \/ ToBoolean subject = false ->
  serve {| Route.request_parsed := inr b |}
  = (inr Route.validation_error, [])
  /\ Route.response_status Route.validation_error = 400
  /\ fetch_count (snd (serve {| Route.request_parsed := inr b |})) = 0%nat.
Proof.
  intros Hd Hf. rewrite (serve_rejected _ _ _ Hd Hf).
  repeat split.
Qed.

(** C2.  When the provider call throws or comes back outside 2xx, the client
    gets status 500 and the fixed body
    [{ success: false, error: 'Failed to get response from AI assistant' }],
    a constant in which nothing of the provider's answer occurs.  The
    failure goes to the server's log only, in one [console.error] after the
    one call: the exception of [fetch] or of reading the error body, or
    ["Google API error: "] with the provider's message or the status
    text. *)
Theorem relay_provider_failure_is_opaque b query subject text :
  well_formed b query subject ->
  prompt subject query = inr text ->
  Route.call_failed (network w endpoint (provider_init subject query)) = true ->
  exists err,
    serve {| Route.request_parsed := inr b |}
    = (inr {| Route.response_body :=
                VObj [(js "success", VBool false);
                      (js "error",
                       VStr (js "Failed to get response from AI assistant"))];
              Route.response_status := 500 |},
       [Fetch endpoint (provider_init subject query);
        ConsoleError (js "Chat API Error:") err])
    /\ (forall e,
          network w endpoint (provider_init subject query) = inl e ->
          err = e)
    /\ (forall r e,
          network w endpoint (provider_init subject query) = inr r ->
          parsed r = inl e -> err = e)
    /\ (forall r errorData e,
          network w endpoint (provider_init subject query) = inr r ->
          parsed r = inr errorData ->
          Route.error_message errorData = inl e -> err = e)
    /\ (forall r errorData detail e,
          network w endpoint (provider_init subject query) = inr r ->
          parsed r = inr errorData ->
          Route.error_message errorData = inr detail ->
          ToString rt (or_else detail (VStr (statusText r))) = inl e ->
          err = e)
    /\ (forall r errorData detail shown,
          network w endpoint (provider_init subject query) = inr r ->
          parsed r = inr errorData ->
          Route.error_message errorData = inr detail ->
          ToString rt (or_else detail (VStr (statusText r))) = inr shown ->
          err = Error (js "Google API error: " ++ shown)).
Proof.
  intros Hwf Hp Hfail.
  destruct (serve_call_failed b query subject text Hwf Hp Hfail)
    as (err & E & L).
  exists err. split; [exact E | exact L].
Qed.

(** C3 (as amended).  On HTTP 200 with a first candidate whose text is a
    string that is not empty, the client gets status 200 and
    [{ success: true, response: text }] with that very text, after the one
    call to the provider. *)
Theorem relay_returns_candidate_text b query subject text r data answer :
  well_formed b query subject ->
  prompt subject query = inr text ->
  network w endpoint (provider_init subject query) = inr r ->
  status r = 200 ->
  parsed r = inr data ->
  Route.candidate_text data = inr (VStr answer) ->
  answer <> [] ->
  serve {| Route.request_parsed := inr b |}
  = (inr {| Route.response_body :=
              VObj [(js "success", VBool true);
                    (js "response", VStr answer)];
            Route.response_status := 200 |},
     [Fetch endpoint (provider_init subject query)]).
Proof.
  intros Hwf Hp Hn Hst Hj Hc Ha.
  rewrite (serve_ok _ _ _ _ _ _ _ Hwf Hp Hn (status_200_ok _ Hst) Hj Hc).
  destruct answer; [congruence | reflexivity].
Qed.

(** C4 (as amended).  On HTTP 200 with a body other than null from which
    the extraction yields nothing (a link of
    [candidates[0].content.parts[0].text] is absent, so the expression is
    undefined, or the value found is falsy), the client gets status 200 and
    [{ success: true, response: 'No response received' }]. *)
Theorem relay_falls_back_without_text b query subject text r data extracted :
  well_formed b query subject ->
  prompt subject query = inr text ->
  network w endpoint (provider_init subject query) = inr r ->
  status r = 200 ->
  parsed r = inr data ->
  is_nullish data = false ->
  Route.candidate_text data = inr extracted ->
  ToBoolean extracted = false ->
  serve {| Route.request_parsed := inr b |}
  = (inr {| Route.response_body :=
              VObj [(js "success", VBool true);
                    (js "response", VStr (js "No response received"))];
            Route.response_status := 200 |},
     [Fetch endpoint (provider_init subject query)]).
Proof.
  intros Hwf Hp Hn Hst Hj _ Hc Ht.
  rewrite (serve_ok _ _ _ _ _ _ _ Hwf Hp Hn (status_200_ok _ Hst) Hj Hc).
  rewrite (or_else_falsy _ _ Ht). reflexivity.
Qed.

(** C5 (as amended).  A request that passes validation and whose subject
    and question convert to text, as every string does, makes exactly one
    outbound call, to the provider's endpoint, whatever the provider does
    with it. *)
Theorem relay_calls_provider_once b query subject text :
  well_formed b query subject ->
  prompt subject query = inr text ->
  filter is_fetch (snd (serve {| Route.request_parsed := inr b |}))
  = [Fetch endpoint (provider_init subject query)]
  /\ fetch_count (snd (serve {| Route.request_parsed := inr b |})) = 1%nat.
Proof.
  intros Hwf Hp. unfold fetch_count.
  destruct (network w endpoint (provider_init subject query)) as [e|r] eqn:Hn.
  { rewrite (serve_fetch_throws _ _ _ _ _ Hwf Hp Hn). split; reflexivity. }
  destruct (ok r) eqn:Hok.
  2:{ destruct (serve_not_ok _ _ _ _ _ Hwf Hp Hn Hok) as [err ->].
      split; reflexivity. }
  destruct (parsed r) as [e|data] eqn:Hj.
  { rewrite (serve_ok_unparseable _ _ _ _ _ _ Hwf Hp Hn Hok Hj).
    split; reflexivity. }
  destruct (Route.candidate_text data) as [e|extracted] eqn:Hc.
  - rewrite (serve_ok_extraction_throws _ _ _ _ _ _ _ Hwf Hp Hn Hok Hj Hc).
    split; reflexivity.
  - rewrite (serve_ok _ _ _ _ _ _ _ Hwf Hp Hn Hok Hj Hc). split; reflexivity.
Qed.


(** C10.  When the request's body does not parse, [request.json()] rejects
    inside the [try]: the client gets status 500 and the generic
    provider-error body, not the 400 of validation, and no call is made. *)
Theorem relay_unparseable_request_is_500 (e : exn) :
  serve {| Route.request_parsed := inl e |}
  = (inr {| Route.response_body :=
              VObj [(js "success", VBool false);
                    (js "error",
                     VStr (js "Failed to get response from AI assistant"))];
            Route.response_status := 500 |},
     [ConsoleError (js "Chat API Error:") e])
  /\ Route.provider_error <> Route.validation_error.
Proof. split; [reflexivity | discriminate]. Qed.

(** A body that is the bare value null fails the destructuring of line 5,
    inside the [try] as well. *)
Lemma serve_null_body :
  serve {| Route.request_parsed := inr VNull |}
  = (inr Route.provider_error,
     [ConsoleError (js "Chat API Error:") TypeError]).
Proof. reflexivity. Qed.

(** The endpoint always answers: nothing escapes the [try]. *)
Lemma serve_always_responds (request : Route.NextRequest) :
  exists response t, serve request = (inr response, t).
Proof.
  destruct request as [[e|b]]; [do 2 eexists; reflexivity|].
  run_handler.
  destruct (destructure2 b (js "query") (js "subject")) as [e|[query subject]];
    [do 2 eexists; reflexivity|].
  destruct (ToBoolean query); [|do 2 eexists; reflexivity].
  destruct (ToBoolean subject); [|do 2 eexists; reflexivity].
  run_handler.
  destruct (prompt subject query) as [e|text]; [do 2 eexists; reflexivity|].
  run_handler.
  destruct (network w endpoint (fetch_init text)) as [e|r];
    [do 2 eexists; reflexivity|].
  destruct (ok r), (parsed r) as [e|data]; try (do 2 eexists; reflexivity).
  - destruct (Route.candidate_text data); do 2 eexists; reflexivity.
  - destruct (Route.error_message data) as [e|detail];
      [do 2 eexists; reflexivity|].
    run_handler.
    destruct (ToString rt (or_else detail (VStr (statusText r))));
      do 2 eexists; reflexivity.
Qed.

End RelayProperties.

(* ===================================================================== *)
(** * The widget *)
(* ===================================================================== *)

Section WidgetProperties.
Variable rt : Builtins.
Variable w : World FloatingChat.WidgetState.

Import FloatingChat.

Lemma guard_passes (s : WidgetState) :
  trim (query s) <> [] -> subject s <> [] ->
  is_empty (trim (query s)) || is_empty (subject s) = false.
Proof.
  intros Hq Hs.
  destruct (trim (query s)); [congruence|].
  destruct (subject s); [congruence|]. reflexivity.
Qed.

Lemma guard_blocks (s : WidgetState) :
  trim (query s) = [] \/ subject s = [] ->
  is_empty (trim (query s)) || is_empty (subject s) = true.
Proof.
  intros [-> | ->]; [reflexivity | apply orb_true_r].
Qed.

Lemma phase_failed (s : WidgetState) :
  response s = VStr failure_message -> loading s = false -> phase s = Failed.
Proof.
  intros Hr Hl. unfold phase, response_area. rewrite Hr, Hl. reflexivity.
Qed.

(** C6.  With a question that trims to nothing, or with no subject chosen,
    submitting changes no field of the state and sends nothing: all the
    handler does is [preventDefault].  The button is disabled as well. *)
Theorem submit_without_input_is_noop (s : WidgetState) :
  trim (query s) = [] \/ subject s = [] ->
  submit rt w s = (inr tt, s, [PreventDefault])
  /\ fetch_count (snd (submit rt w s)) = 0%nat
  /\ submit_disabled s = true.
Proof.
  intros H. pose proof (guard_blocks s H) as G.
  assert (E : submit rt w s = (inr tt, s, [PreventDefault])).
  { run_handler. fold (trim (query s)).
    change (if is_empty (trim (query s)) then true else is_empty (subject s))
      with (is_empty (trim (query s)) || is_empty (subject s)).
    rewrite G. reflexivity. }
  rewrite E. repeat split.
  unfold submit_disabled. rewrite <- orb_assoc, G. apply orb_true_r.
Qed.

(** C7 (as amended).  Clear, from any state, empties the question, the
    subject and the response, and leaves [isOpen] and [loading] as they
    were: the widget is Idle afterwards when no call is in flight, and still
    Pending when one is. *)
Theorem clear_empties_fields (s : WidgetState) :
  exists s',
    clear w s = (inr tt, s', [])
    /\ query s' = [] /\ subject s' = [] /\ response s' = VStr []
    /\ loading s' = loading s /\ isOpen s' = isOpen s
    /\ phase s' = if loading s then Pending else Idle.
Proof.
  eexists. split; [reflexivity|]. simpl. repeat split.
  unfold phase, response_area. simpl. destruct (loading s); reflexivity.
Qed.


(** Nothing escapes [handleSubmit], whatever the relay does. *)
Lemma submit_never_throws (s : WidgetState) :
  exists s' t, submit rt w s = (inr tt, s', t).
Proof.
  run_handler. fold (trim (query s)).
  destruct (is_empty (trim (query s))); [do 2 eexists; reflexivity|].
  destruct (is_empty (subject s)); [do 2 eexists; reflexivity|].
  destruct (network w (js "/api/chat") (chat_init rt (query s) (subject s)))
    as [e|res]; [do 2 eexists; reflexivity|].
  destruct (parsed res) as [e|data]; [do 2 eexists; reflexivity|].
  destruct (Get data (js "success")) as [e|success];
    [do 2 eexists; reflexivity|].
  destruct (ToBoolean success); [|do 2 eexists; reflexivity].
  destruct (Get data (js "response")); do 2 eexists; reflexivity.
Qed.

End WidgetProperties.

(* ===================================================================== *)
(** * The properties at concrete inputs *)
(* ===================================================================== *)

Module Examples.
Import Sample.

#[local] Abbreviation serve := (Route.serve Sample.rt None []).
#[local] Abbreviation physics := (VStr (js "Physics")).
#[local] Abbreviation inertia := (VStr (js "What is inertia?")).

(** C1, the claim as stated fails: a question of three blanks is empty after
    trimming, yet it passes line 7, the provider is called, and the client
    gets the provider's answer with status 200. *)
Lemma relay_blank_question_reaches_provider :
  trim (js "   ") = []
  /\ serve (respond (http 200 "OK" (reply (VStr (js "Ask me something.")))))
           (ask (VStr (js "   ")) physics)
     = (inr (Route.answer (VStr (js "Ask me something."))),
        [Fetch (Route.endpoint)
               (Route.provider_init Sample.rt None []
                  physics (VStr (js "   ")))])
  /\ Route.response_status (Route.answer (VStr (js "Ask me something."))) = 200
  /\ fetch_count
       (snd (serve (respond (http 200 "OK" (reply (VStr (js "Ask me something.")))))
                   (ask (VStr (js "   ")) physics))) = 1%nat.
Proof. repeat split. Qed.

Lemma relay_rejects_missing_fields_witness :
  serve (respond unreachable) (ask (VStr []) physics)
  = (inr Route.validation_error, [])
  /\ Route.response_status Route.validation_error = 400
  /\ fetch_count (snd (serve (respond unreachable) (ask (VStr []) physics)))
     = 0%nat.
Proof.
  apply (relay_rejects_missing_fields Sample.rt None [] (respond unreachable)
           _ (VStr []) physics);
    [reflexivity | left; reflexivity].
Defined.

(** C2 at a 503 of the provider: the provider's message is in the log and
    not in the body. *)
Lemma relay_provider_failure_is_opaque_witness :
  serve (respond (http 503 "Service Unavailable"
                    (VObj [(js "error",
                            VObj [(js "message",
                                   VStr (js "quota exceeded for key"))])])))
        (ask inertia physics)
  = (inr Route.provider_error,
     [Fetch Route.endpoint
            (Route.provider_init Sample.rt None [] physics inertia);
      ConsoleError (js "Chat API Error:")
        (Error (js "Google API error: quota exceeded for key"))]).
Proof.
  destruct (relay_provider_failure_is_opaque Sample.rt None []
              (respond (http 503 "Service Unavailable"
                          (VObj [(js "error",
                                  VObj [(js "message",
                                         VStr (js "quota exceeded for key"))])])))
              (VObj [(js "query", inertia); (js "subject", physics)])
              inertia physics _
              ltac:(repeat split) eq_refl eq_refl)
    as (err & E & _ & _ & _ & _ & L).
  etransitivity; [exact E|].
  rewrite (L _ _ _ _ eq_refl eq_refl eq_refl eq_refl).
  reflexivity.
Defined.

(** C3, the claim as stated fails: with a first candidate whose text is the
    empty string the client does not get that text but the fallback. *)
Lemma relay_empty_candidate_text_is_replaced :
  Route.candidate_text (reply (VStr [])) = inr (VStr [])
  /\ fst (serve (respond (http 200 "OK" (reply (VStr []))))
                (ask inertia physics))
     = inr (Route.answer (VStr (js "No response received")))
  /\ Route.answer (VStr (js "No response received")) <> Route.answer (VStr []).
Proof. repeat split. discriminate. Qed.

Lemma relay_returns_candidate_text_witness :
  serve (respond (http 200 "OK" (reply (VStr (js "Inertia is resistance to change in motion.")))))
        (ask inertia physics)
  = (inr (Route.answer (VStr (js "Inertia is resistance to change in motion."))),
     [Fetch Route.endpoint
            (Route.provider_init Sample.rt None [] physics inertia)]).
Proof.
  eapply (relay_returns_candidate_text Sample.rt None [] _ _ inertia physics);
    first [reflexivity | discriminate | repeat split].
Defined.

(** C4, the claim as stated fails: a 200 whose body is the JSON value null
    has no candidate text to extract, yet the client gets the 500 of the
    catch-all, not the fallback answer: [data.candidates] throws on null. *)
Lemma relay_null_provider_body_is_500 :
  Route.candidate_text VNull = inl TypeError
  /\ serve (respond (http 200 "OK" VNull)) (ask inertia physics)
     = (inr Route.provider_error,
        [Fetch Route.endpoint
               (Route.provider_init Sample.rt None [] physics inertia);
         ConsoleError (js "Chat API Error:") TypeError])
  /\ Route.response_status Route.provider_error = 500
  /\ Route.provider_error <> Route.answer (VStr (js "No response received")).
Proof. repeat split. discriminate. Qed.

Lemma relay_falls_back_without_text_witness :
  serve (respond (http 200 "OK" (VObj [(js "candidates", VArr [])])))
        (ask inertia physics)
  = (inr (Route.answer (VStr (js "No response received"))),
     [Fetch Route.endpoint
            (Route.provider_init Sample.rt None [] physics inertia)]).
Proof.
  eapply (relay_falls_back_without_text Sample.rt None [] _ _ inertia physics
            _ _ _ VUndefined);
    first [reflexivity | repeat split].
Defined.

(** C5, the claim as stated fails: a subject that is the object
    [{ toString: 1 }] is present and truthy, so the request passes line 7,
    but the template literal of lines 19-25 cannot convert it: the handler
    throws before [fetch], makes no call and answers 500. *)
Lemma relay_unconvertible_subject_makes_no_call :
  Route.well_formed
    (VObj [(js "query", inertia);
           (js "subject", VObj [(js "toString", VNum 1%float)])])
    inertia (VObj [(js "toString", VNum 1%float)])
  /\ serve (respond (http 200 "OK" (reply (VStr (js "Ask me something.")))))
           (ask inertia (VObj [(js "toString", VNum 1%float)]))
     = (inr Route.provider_error,
        [ConsoleError (js "Chat API Error:")
           (Thrown (js "TypeError")
                   (js "Cannot convert object to primitive value"))])
  /\ fetch_count
       (snd (serve (respond (http 200 "OK" (reply (VStr (js "Ask me something.")))))
                   (ask inertia (VObj [(js "toString", VNum 1%float)]))))
     = 0%nat.
Proof. repeat split. Qed.

Lemma relay_calls_provider_once_witness :
  filter is_fetch (snd (serve (respond unreachable) (ask inertia physics)))
  = [Fetch Route.endpoint
           (Route.provider_init Sample.rt None [] physics inertia)]
  /\ fetch_count (snd (serve (respond unreachable) (ask inertia physics)))
     = 1%nat.
Proof.
  eapply (relay_calls_provider_once Sample.rt None [] (respond unreachable)
            _ inertia physics);
    first [reflexivity | repeat split].
Defined.


(** The extraction falls back for each absent link of the path. *)
Example fallback_no_candidates :
  fst (serve (respond (http 200 "OK" (VObj []))) (ask inertia physics))
  = inr (Route.answer (VStr (js "No response received"))).
Proof. reflexivity. Qed.

Example fallback_no_content :
  fst (serve (respond (http 200 "OK"
                         (VObj [(js "candidates",
                                 VArr [VObj [(js "finishReason",
                                              VStr (js "SAFETY"))]])])))
             (ask inertia physics))
  = inr (Route.answer (VStr (js "No response received"))).
Proof. reflexivity. Qed.

Example fallback_no_parts :
  fst (serve (respond (http 200 "OK"
                         (VObj [(js "candidates",
                                 VArr [VObj [(js "content", VObj [])]])])))
             (ask inertia physics))
  = inr (Route.answer (VStr (js "No response received"))).
Proof. reflexivity. Qed.

Example fallback_no_text :
  fst (serve (respond (http 200 "OK"
                         (VObj [(js "candidates",
                                 VArr [VObj [(js "content",
                                              VObj [(js "parts",
                                                     VArr [VObj []])])]])])))
             (ask inertia physics))
  = inr (Route.answer (VStr (js "No response received"))).
Proof. reflexivity. Qed.

(** C6 at the spec's scenario: no subject, question ["test"]. *)
Lemma submit_without_input_is_noop_witness :
  FloatingChat.submit Sample.rt (respond unreachable) (typed "test" "")
  = (inr tt, typed "test" "", [PreventDefault])
  /\ fetch_count
       (snd (FloatingChat.submit Sample.rt (respond unreachable)
               (typed "test" ""))) = 0%nat
  /\ FloatingChat.submit_disabled (typed "test" "") = true.
Proof.
  apply (submit_without_input_is_noop Sample.rt (respond unreachable)
           (typed "test" "")).
  right; reflexivity.
Defined.

(** C7, the claim as stated fails: Clear while a call is in flight leaves
    [loading] set, so the panel still shows the spinner and the disabled
    button: the widget is Pending, not Idle. *)
Lemma clear_while_pending_stays_pending :
  FloatingChat.phase waiting = FloatingChat.Pending
  /\ FloatingChat.phase
       (snd (fst (FloatingChat.clear (respond unreachable) waiting)))
     = FloatingChat.Pending
  /\ FloatingChat.response_area
       (snd (fst (FloatingChat.clear (respond unreachable) waiting)))
     = FloatingChat.Thinking
  /\ FloatingChat.Pending <> FloatingChat.Idle.
Proof. repeat split. discriminate. Qed.


Example failed_call_network_down :
  snd (fst (FloatingChat.submit Sample.rt (respond unreachable)
              (typed "What is inertia?" "Physics")))
  = {| FloatingChat.isOpen := true;
       FloatingChat.query := js "What is inertia?";
       FloatingChat.subject := js "Physics";
       FloatingChat.response := VStr FloatingChat.failure_message;
       FloatingChat.loading := false |}.
Proof. reflexivity. Qed.

(** The spec's first scenario, end to end: the relay's answer is shown. *)
Example answered_call :
  FloatingChat.phase
    (snd (fst (FloatingChat.submit Sample.rt
                 (respond (http 200 "OK"
                             (Route.response_body
                                (Route.answer (VStr (js "Inertia is ..."))))))
                 (typed "What is inertia?" "Physics"))))
  = FloatingChat.Answered.
Proof. reflexivity. Qed.

End Examples.

(* ===================================================================== *)
(** * More on the relay *)
(* ===================================================================== *)

Section RelayInvariants.
Variable rt : Builtins.
Variable GEMINI_API_KEY : option jsstring.
Variable fallback_key : jsstring.
Variable w : World unit.

#[local] Abbreviation serve := (Route.serve rt GEMINI_API_KEY fallback_key w).
#[local] Abbreviation endpoint := Route.endpoint.
#[local] Abbreviation provider_init :=
  (Route.provider_init rt GEMINI_API_KEY fallback_key).
#[local] Abbreviation fetch_init :=
  (Route.fetch_init rt GEMINI_API_KEY fallback_key).
#[local] Abbreviation well_formed := Route.well_formed.
#[local] Abbreviation prompt := (Route.prompt rt).

(** What is left of a truthy value once it went through JSON: itself or
    something truthy, except for an infinite number, which becomes null. *)
Lemma through_JSON_truthy (v : value) :
  ToBoolean v = true ->
  ToBoolean (through_JSON v) = true \/ through_JSON v = VNull.
Proof.
  destruct v as [| |b|n|t|elems|props]; simpl; intros H;
    try discriminate; try (left; exact H); try (left; reflexivity).
  apply negb_true_iff in H. apply orb_false_iff in H. destruct H as [Hz Hn].
  destruct (PrimFloat.is_finite n); [|right; reflexivity].
  rewrite Hz. left. simpl. rewrite Hz, Hn. reflexivity.
Qed.



Lemma answer_response (text : value) :
  ToBoolean text = true ->
  Get (Route.response_body (Route.answer text)) (js "response")
  = inr (through_JSON text)
  /\ Get (Route.response_body (Route.answer text)) (js "error")
     = inr VUndefined.
Proof. destruct text; simpl; intros H; try discriminate; split; reflexivity. Qed.

Lemma or_else_fallback_truthy (extracted : value) :
  ToBoolean (or_else extracted (VStr (js "No response received"))) = true.
Proof.
  unfold or_else. destruct (ToBoolean extracted) eqn:E; [exact E | reflexivity].
Qed.

(** Every call of the endpoint ends in one of three ways. *)
Lemma serve_cases (request : Route.NextRequest) :
  serve request = (inr Route.validation_error, [])
  \/ (exists t, serve request = (inr Route.provider_error, t))
  \/ (exists text t,
        ToBoolean text = true
        /\ serve request = (inr (Route.answer text), t)).
Proof.
  destruct request as [[e|b]]; [right; left; eexists; reflexivity|].
  run_handler.
  destruct (destructure2 b (js "query") (js "subject")) as [e|[query subject]];
    [right; left; eexists; reflexivity|].
  destruct (ToBoolean query); [|left; reflexivity].
  destruct (ToBoolean subject); [|left; reflexivity].
  right. run_handler.
  destruct (prompt subject query) as [e|text]; [left; eexists; reflexivity|].
  run_handler.
  destruct (network w endpoint (fetch_init text)) as [e|r];
    [left; eexists; reflexivity|].
  destruct (ok r), (parsed r) as [e|data]; try (left; eexists; reflexivity).
  - destruct (Route.candidate_text data) as [e|extracted];
      [left; eexists; reflexivity|].
    right. do 2 eexists. split; [|reflexivity].
    apply or_else_fallback_truthy.
  - destruct (Route.error_message data) as [e|detail];
      [left; eexists; reflexivity|].
    run_handler.
    destruct (ToString rt (or_else detail (VStr (statusText r))));
      left; eexists; reflexivity.
Qed.

(** X1.  Whatever the request and whatever the provider does, the endpoint
    answers with status 200, 400 or 500, and the [success] flag of the body
    is true exactly when the status is 200. *)
Theorem relay_success_flag_matches_status (request : Route.NextRequest) :
  exists response t,
    serve request = (inr response, t)
    /\ (Route.response_status response = 200
        \/ Route.response_status response = 400
        \/ Route.response_status response = 500)
    /\ Get (Route.response_body response) (js "success")
       = inr (VBool (Route.response_status response =? 200)).
Proof.
  destruct (serve_cases request) as [E | [[t E] | (text & t & _ & E)]];
    rewrite E; do 2 eexists; (split; [reflexivity|]); simpl; auto.
Qed.

(** X2.  A 200 answer carries a [response] that is truthy, or null when
    the provider's text was a number JSON cannot write (an infinite one),
    never an empty string or a missing field, and no [error]; any other
    answer carries a non-empty [error] string and no [response]. *)
Theorem relay_body_fields (request : Route.NextRequest) :
  exists response t,
    serve request = (inr response, t)
    /\ if Route.response_status response =? 200 then
         (exists text,
            Get (Route.response_body response) (js "response") = inr text
            /\ (ToBoolean text = true \/ text = VNull))
         /\ Get (Route.response_body response) (js "error") = inr VUndefined
       else
         (exists message,
            Get (Route.response_body response) (js "error") = inr (VStr message)
            /\ message <> [])
         /\ Get (Route.response_body response) (js "response") = inr VUndefined.
Proof.
  destruct (serve_cases request) as [E | [[t E] | (text & t & Ht & E)]];
    rewrite E; do 2 eexists; (split; [reflexivity|]).
  - simpl. split; [eexists; split; [reflexivity | discriminate] | reflexivity].
  - simpl. split; [eexists; split; [reflexivity | discriminate] | reflexivity].
  - change (Route.response_status (Route.answer text) =? 200) with true.
    cbv iota. destruct (answer_response text Ht) as [Hr He].
    split; [|exact He].
    exists (through_JSON text). split; [exact Hr|].
    exact (through_JSON_truthy text Ht).
Qed.

(** X3.  For a request that reaches the provider and a body from which the
    extraction evaluates, the client sees status 200 exactly when the
    provider's status lies in 200..299: every 2xx status counts as success,
    199 and 300 do not. *)
Theorem relay_success_iff_2xx b query subject text r data extracted :
  well_formed b query subject ->
  prompt subject query = inr text ->
  network w endpoint (provider_init subject query) = inr r ->
  parsed r = inr data ->
  Route.candidate_text data = inr extracted ->
  exists response t,
    serve {| Route.request_parsed := inr b |} = (inr response, t)
    /\ (Route.response_status response = 200
        <-> 200 <= status r /\ status r <= 299).
Proof.
  intros Hwf Hp Hn Hj Hc. destruct (ok r) eqn:Hok.
  - rewrite (serve_ok _ _ _ _ _ _ _ _ _ _ _ Hwf Hp Hn Hok Hj Hc).
    do 2 eexists. split; [reflexivity|]. split; [intros _|reflexivity].
    unfold ok in Hok. apply andb_true_iff in Hok.
    rewrite !N.leb_le in Hok. exact Hok.
  - destruct (serve_not_ok _ _ _ _ _ _ _ _ _ Hwf Hp Hn Hok) as [err ->].
    do 2 eexists. split; [reflexivity|]. split; [discriminate|].
    intros [H1 H2]. unfold ok in Hok.
    apply N.leb_le in H1. apply N.leb_le in H2.
    rewrite H1, H2 in Hok. discriminate.
Qed.

(** X4.  When the provider answers outside 2xx with a parseable body, the
    client gets the generic 500 and the server logs one error.  With a
    truthy [error.message] that converts to text it is
    ["Google API error: "] followed by that text; with a falsy or absent
    message it is the same prefix followed by the status text.  A body that
    is null, or a message that is an object with a [toString] of its own,
    makes line 52 throw a [TypeError], and that is what is logged. *)
Theorem relay_logs_provider_message b query subject text r errorData :
  well_formed b query subject ->
  prompt subject query = inr text ->
  network w endpoint (provider_init subject query) = inr r ->
  ok r = false ->
  parsed r = inr errorData ->
  serve {| Route.request_parsed := inr b |}
  = (inr Route.provider_error,
     [Fetch endpoint (provider_init subject query);
      ConsoleError (js "Chat API Error:")
        match Route.error_message errorData with
        | inl e => e
        | inr detail =>
            if ToBoolean detail then
              match ToString rt detail with
              | inl e => e
              | inr shown => Error (js "Google API error: " ++ shown)
              end
            else Error (js "Google API error: " ++ statusText r)
        end]).
Proof.
  intros Hwf Hp Hn Hok Hj.
  destruct (Route.error_message errorData) as [e|detail] eqn:He.
  { exact (serve_not_ok_unreadable _ _ _ _ _ _ _ _ _ _ _
             Hwf Hp Hn Hok Hj He). }
  destruct (ToString rt (or_else detail (VStr (statusText r))))
    as [e|shown] eqn:Ht.
  - rewrite (serve_not_ok_unconvertible _ _ _ _ _ _ _ _ _ _ _ _
               Hwf Hp Hn Hok Hj He Ht).
    unfold or_else in Ht. destruct (ToBoolean detail).
    + rewrite Ht. reflexivity.
    + discriminate.
  - rewrite (serve_not_ok_logs_detail _ _ _ _ _ _ _ _ _ _ _ _
               Hwf Hp Hn Hok Hj He Ht).
    unfold or_else in Ht. destruct (ToBoolean detail).
    + rewrite Ht. reflexivity.
    + injection Ht as <-. reflexivity.
Qed.

(** X5.  When the provider answers outside 2xx with a body that does not
    parse, [response.json()] rejects before the error is built: what is
    logged is the parse exception, and the status text is lost. *)
Theorem relay_unparseable_error_body b query subject text r e :
  well_formed b query subject ->
  prompt subject query = inr text ->
  network w endpoint (provider_init subject query) = inr r ->
  ok r = false ->
  parsed r = inl e ->
  serve {| Route.request_parsed := inr b |}
  = (inr Route.provider_error,
     [Fetch endpoint (provider_init subject query);
      ConsoleError (js "Chat API Error:") e]).
Proof.
  intros Hwf Hp Hn Hok Hj.
  exact (serve_not_ok_unparseable _ _ _ _ _ _ _ _ _ _ Hwf Hp Hn Hok Hj).
Qed.

(** X6.  The key sent in [x-goog-api-key] is the environment's when that
    is set and not empty, the fallback literal otherwise (an empty variable
    counts as unset); with a non-empty literal the header is never empty.
    The key goes nowhere else: URL and body do not depend on it. *)
Theorem relay_key_selection subject query :
  fallback_key <> [] ->
  headers (provider_init subject query)
  = [(js "Content-Type", js "application/json");
     (js "x-goog-api-key", Route.apiKey GEMINI_API_KEY fallback_key)]
  /\ Route.apiKey GEMINI_API_KEY fallback_key <> []
  /\ (forall k, GEMINI_API_KEY = Some k -> k <> [] ->
      Route.apiKey GEMINI_API_KEY fallback_key = k)
  /\ (GEMINI_API_KEY = None \/ GEMINI_API_KEY = Some [] ->
      Route.apiKey GEMINI_API_KEY fallback_key = fallback_key)
  /\ (forall env' key',
      body (Route.provider_init rt env' key' subject query)
      = body (provider_init subject query)).
Proof.
  intros Hf. split; [reflexivity|]. unfold Route.apiKey.
  repeat split.
  - destruct GEMINI_API_KEY as [[|c k]|]; simpl; congruence.
  - intros k -> Hk. destruct k; [congruence | reflexivity].
  - intros [-> | ->]; reflexivity.
Qed.

(** X7.  The prompt does not delimit what it embeds: a subject that ends
    with the question's label and a question that starts with it give the
    same prompt, so two different requests reach the provider as one. *)
Theorem relay_prompt_is_ambiguous (A B C : jsstring) :
  Route.prompt rt (VStr (A ++ Wire.question_label ++ B)) (VStr C)
  = Route.prompt rt (VStr A) (VStr (B ++ Wire.question_label ++ C))
  /\ provider_init (VStr (A ++ Wire.question_label ++ B)) (VStr C)
     = provider_init (VStr A) (VStr (B ++ Wire.question_label ++ C))
  /\ A ++ Wire.question_label ++ B <> A.
Proof.
  assert (D : A ++ Wire.question_label ++ B <> A).
  { intros H. apply (f_equal (@List.length N)) in H.
    rewrite !length_app in H. simpl in H. lia. }
  assert (E : Route.prompt rt (VStr (A ++ Wire.question_label ++ B)) (VStr C)
              = Route.prompt rt (VStr A)
                  (VStr (B ++ Wire.question_label ++ C))).
  { unfold Route.prompt, Wire.question_label. cbn [ToString].
    repeat rewrite <- app_assoc. reflexivity. }
  split; [exact E|]. split; [|exact D].
  unfold Route.provider_init, Route.requestBody. rewrite E. reflexivity.
Qed.

End RelayInvariants.

(* ===================================================================== *)
(** * More on the widget *)
(* ===================================================================== *)

Section WidgetRuns.
Variable rt : Builtins.
Variable w : World FloatingChat.WidgetState.

Import FloatingChat.

#[local] Abbreviation call s :=
  (Fetch (js "/api/chat") (chat_init rt (query s) (subject s))).
#[local] Abbreviation reply_to s :=
  (network w (js "/api/chat") (chat_init rt (query s) (subject s))).
#[local] Abbreviation resumed1 s := (interleaved w (Wire.pending s)).
#[local] Abbreviation resumed2 s :=
  (interleaved w (interleaved w (Wire.pending s))).

Ltac run_submit s G :=
  run_handler; fold (trim (query s));
  change (if is_empty (trim (query s)) then true else is_empty (subject s))
    with (is_empty (trim (query s)) || is_empty (subject s));
  rewrite G.

Lemma submit_fetch_rejects (s : WidgetState) e :
  trim (query s) <> [] -> subject s <> [] ->
  reply_to s = inl e ->
  submit rt w s
  = (inr tt, Wire.settle (resumed1 s) (VStr failure_message),
     [PreventDefault; call s]).
Proof.
  intros Hq Hs Hn. pose proof (guard_passes s Hq Hs) as G.
  run_submit s G. rewrite Hn. reflexivity.
Qed.

Lemma submit_body_unparseable (s : WidgetState) res e :
  trim (query s) <> [] -> subject s <> [] ->
  reply_to s = inr res -> parsed res = inl e ->
  submit rt w s
  = (inr tt, Wire.settle (resumed2 s) (VStr failure_message),
     [PreventDefault; call s]).
Proof.
  intros Hq Hs Hn Hp. pose proof (guard_passes s Hq Hs) as G.
  run_submit s G. rewrite Hn, Hp. reflexivity.
Qed.

Lemma submit_body_nullish (s : WidgetState) res data e :
  trim (query s) <> [] -> subject s <> [] ->
  reply_to s = inr res -> parsed res = inr data ->
  Get data (js "success") = inl e ->
  submit rt w s
  = (inr tt, Wire.settle (resumed2 s) (VStr failure_message),
     [PreventDefault; call s]).
Proof.
  intros Hq Hs Hn Hp Hg. pose proof (guard_passes s Hq Hs) as G.
  run_submit s G. rewrite Hn, Hp, Hg. reflexivity.
Qed.

Lemma submit_flag_falsy (s : WidgetState) res data flag :
  trim (query s) <> [] -> subject s <> [] ->
  reply_to s = inr res -> parsed res = inr data ->
  Get data (js "success") = inr flag -> ToBoolean flag = false ->
  submit rt w s
  = (inr tt, Wire.settle (resumed2 s) (VStr failure_message),
     [PreventDefault; call s]).
Proof.
  intros Hq Hs Hn Hp Hg Hf. pose proof (guard_passes s Hq Hs) as G.
  run_submit s G. rewrite Hn, Hp, Hg, Hf. reflexivity.
Qed.

Lemma Get_twice (data : value) (a b : jsstring) x :
  Get data a = inr x -> exists y, Get data b = inr y.
Proof. destruct data; simpl; intros H; try discriminate; eauto. Qed.

Lemma submit_flag_truthy (s : WidgetState) res data flag text :
  trim (query s) <> [] -> subject s <> [] ->
  reply_to s = inr res -> parsed res = inr data ->
  Get data (js "success") = inr flag -> ToBoolean flag = true ->
  Get data (js "response") = inr text ->
  submit rt w s
  = (inr tt, Wire.settle (resumed2 s) text, [PreventDefault; call s]).
Proof.
  intros Hq Hs Hn Hp Hg Hf Hr. pose proof (guard_passes s Hq Hs) as G.
  run_submit s G. rewrite Hn, Hp, Hg, Hf, Hr. reflexivity.
Qed.

(** An accepted submission ends in a settled state: the state the other
    handlers left at the last resumption, with a new response. *)
Lemma submit_settles (s : WidgetState) :
  trim (query s) <> [] -> subject s <> [] ->
  exists mid r,
    submit rt w s = (inr tt, Wire.settle mid r, [PreventDefault; call s])
    /\ (mid = resumed1 s \/ mid = resumed2 s).
Proof.
  intros Hq Hs.
  destruct (reply_to s) as [e|res] eqn:Hn.
  { do 2 eexists. split; [exact (submit_fetch_rejects s e Hq Hs Hn) | auto]. }
  destruct (parsed res) as [e|data] eqn:Hp.
  { do 2 eexists.
    split; [exact (submit_body_unparseable s res e Hq Hs Hn Hp) | auto]. }
  destruct (Get data (js "success")) as [e|flag] eqn:Hg.
  { do 2 eexists.
    split; [exact (submit_body_nullish s res data e Hq Hs Hn Hp Hg) | auto]. }
  destruct (ToBoolean flag) eqn:Hf.
  - destruct (Get_twice data _ (js "response") _ Hg) as [text Hr].
    do 2 eexists.
    split; [exact (submit_flag_truthy s res data flag text
                     Hq Hs Hn Hp Hg Hf Hr) | auto].
  - do 2 eexists.
    split; [exact (submit_flag_falsy s res data flag Hq Hs Hn Hp Hg Hf) | auto].
Qed.

(** Once [loading] is off the panel is never on the spinner. *)
Lemma settled_is_not_thinking (s : WidgetState) :
  loading s = false -> response_area s <> Thinking.
Proof.
  unfold response_area. intros ->. rewrite orb_false_r.
  destruct (ToBoolean (response s)); [|discriminate].
  destruct (response s) as [| |b|n|t|elems|props]; try discriminate.
  destruct (child_texts (VArr elems)); discriminate.
Qed.


(** X9.  Every accepted submission, however the call ends, sends exactly
    one request, a POST to [/api/chat], returns normally and leaves
    [loading] cleared: the widget never stays on the spinner. *)
Theorem accepted_submit_calls_once (s : WidgetState) :
  trim (query s) <> [] -> subject s <> [] ->
  exists s',
    submit rt w s = (inr tt, s', [PreventDefault; call s])
    /\ fetch_count (snd (submit rt w s)) = 1%nat
    /\ method (chat_init rt (query s) (subject s)) = js "POST"
    /\ loading s' = false
    /\ response_area s' <> Thinking.
Proof.
  intros Hq Hs. destruct (submit_settles s Hq Hs) as (mid & r & E & _).
  rewrite E. eexists. split; [reflexivity|].
  split; [reflexivity|]. split; [reflexivity|]. split; [reflexivity|].
  apply settled_is_not_thinking. reflexivity.
Qed.

(** X10.  [handleSubmit] writes [loading] and [response] only.  It
    suspends in the state [pending] (spinner on, old response gone), and
    whatever other handlers do to [isOpen], [query] and [subject] while the
    call is in flight is still there when it has finished. *)
Theorem submit_keeps_concurrent_edits (s : WidgetState) :
  trim (query s) <> [] -> subject s <> [] ->
  exists s' mid,
    fst (fst (submit rt w s)) = inr tt
    /\ snd (fst (submit rt w s)) = s'
    /\ (mid = interleaved w (Wire.pending s)
        \/ mid = interleaved w (interleaved w (Wire.pending s)))
    /\ isOpen s' = isOpen mid /\ query s' = query mid
    /\ subject s' = subject mid
    /\ phase (Wire.pending s) = Pending.
Proof.
  intros Hq Hs. destruct (submit_settles s Hq Hs) as (mid & r & E & Hmid).
  rewrite E. exists (Wire.settle mid r), mid. repeat split; assumption.
Qed.

(** X11.  A result that arrives late is not discarded.  When Clear is
    pressed while the call is in flight and the relay then answers with
    success, the answer is put on screen over the emptied form. *)
Theorem late_answer_survives_clear (s : WidgetState) res data flag text :
  trim (query s) <> [] -> subject s <> [] ->
  interleaved w = (fun x => snd (fst (clear w x))) ->
  reply_to s = inr res -> parsed res = inr data ->
  Get data (js "success") = inr flag -> ToBoolean flag = true ->
  Get data (js "response") = inr text ->
  snd (fst (submit rt w s))
  = {| isOpen := isOpen s; query := []; subject := [];
       response := text; loading := false |}.
Proof.
  intros Hq Hs Hi Hn Hp Hg Hf Hr.
  rewrite (submit_flag_truthy s res data flag text Hq Hs Hn Hp Hg Hf Hr).
  rewrite Hi. reflexivity.
Qed.

(** X12.  [handleSubmit] itself does not look at [loading]: run while a
    call is in flight, with a question and a subject, it sends another
    request.  Only the disabled button stands in the way. *)
Theorem submit_ignores_loading (s : WidgetState) :
  loading s = true ->
  trim (query s) <> [] -> subject s <> [] ->
  submit_disabled s = true
  /\ filter is_fetch (snd (submit rt w s)) = [call s].
Proof.
  intros Hl Hq Hs. split.
  - unfold submit_disabled. rewrite Hl. reflexivity.
  - destruct (submit_settles s Hq Hs) as (mid & r & E & _).
    rewrite E. reflexivity.
Qed.

(** X13.  The floating button flips [isOpen] and nothing else: the form,
    the response, the spinner and the phase stay as they are, nothing is
    sent, and a second press restores the state. *)
Theorem toggle_only_flips_panel (s : WidgetState) :
  exists s1,
    toggle s w s = (inr tt, s1, [])
    /\ isOpen s1 = negb (isOpen s)
    /\ query s1 = query s /\ subject s1 = subject s
    /\ response s1 = response s /\ loading s1 = loading s
    /\ phase s1 = phase s
    /\ toggle s1 w s1 = (inr tt, s, []).
Proof.
  destruct s as [o q sj r l].
  eexists. split; [reflexivity|]. simpl. repeat split.
  unfold toggle, setIsOpen, modify. simpl.
  rewrite negb_involutive. reflexivity.
Qed.

End WidgetRuns.

(* ===================================================================== *)
(** * The widget through the relay *)
(* ===================================================================== *)

Section EndToEnd.
Variable rt : Builtins.
Variable GEMINI_API_KEY : option jsstring.
Variable fallback_key : jsstring.
Variable provider : World unit.
Variable w : World FloatingChat.WidgetState.

Import FloatingChat.

#[local] Abbreviation relay payload :=
  (Route.serve rt GEMINI_API_KEY fallback_key provider
     {| Route.request_parsed := inr payload |}).
#[local] Abbreviation payload_of s :=
  (Wire.chat_payload (query s) (subject s)).
#[local] Abbreviation call s :=
  (Fetch (js "/api/chat") (chat_init rt (query s) (subject s))).
#[local] Abbreviation provider_reply s :=
  (network provider Route.endpoint
     (Route.provider_init rt GEMINI_API_KEY fallback_key
        (VStr (subject s)) (VStr (query s)))).

Lemma trim_nil : trim [] = [].
Proof. reflexivity. Qed.

Lemma payload_well_formed (s : WidgetState) :
  trim (query s) <> [] -> subject s <> [] ->
  Route.well_formed (payload_of s) (VStr (query s)) (VStr (subject s)).
Proof.
  intros Hq Hs. repeat split; simpl.
  - destruct (query s); [exfalso; apply Hq; exact trim_nil | reflexivity].
  - destruct (subject s); [congruence | reflexivity].
Qed.

Lemma prompt_of_payload (s : WidgetState) :
  exists text,
    Route.prompt rt (VStr (subject s)) (VStr (query s)) = inr text.
Proof. eexists. reflexivity. Qed.

Lemma serve_well_formed_cases b query subject text :
  Route.well_formed b query subject ->
  Route.prompt rt subject query = inr text ->
  (exists t, relay b = (inr Route.provider_error, t)
             /\ fetch_count t = 1%nat)
  \/ (exists answer t,
        ToBoolean answer = true
        /\ relay b = (inr (Route.answer answer), t)
        /\ fetch_count t = 1%nat).
Proof.
  intros Hwf Hb.
  destruct (network provider Route.endpoint
              (Route.provider_init rt GEMINI_API_KEY fallback_key
                 subject query)) as [e|r] eqn:Hn.
  { left. eexists. rewrite (serve_fetch_throws _ _ _ _ _ _ _ _ _ Hwf Hb Hn).
    split; reflexivity. }
  destruct (ok r) eqn:Hok.
  2:{ left. destruct (serve_not_ok _ _ _ _ _ _ _ _ _ Hwf Hb Hn Hok) as [err ->].
      eexists. split; reflexivity. }
  destruct (parsed r) as [e|data] eqn:Hp.
  { left. eexists.
    rewrite (serve_ok_unparseable _ _ _ _ _ _ _ _ _ _ Hwf Hb Hn Hok Hp).
    split; reflexivity. }
  destruct (Route.candidate_text data) as [e|extracted] eqn:Hc.
  - left. eexists.
    rewrite (serve_ok_extraction_throws _ _ _ _ _ _ _ _ _ _ _
               Hwf Hb Hn Hok Hp Hc).
    split; reflexivity.
  - right. do 2 eexists.
    rewrite (serve_ok _ _ _ _ _ _ _ _ _ _ _ Hwf Hb Hn Hok Hp Hc).
    split; [apply or_else_fallback_truthy | split; reflexivity].
Qed.

(** X14.  What the widget sends always passes the relay's validation.  The
    body of an accepted submission is the stringified
    [{ query, subject }], with the question as typed (not trimmed); both
    fields are non-empty strings, so the relay never answers it with 400 and
    always forwards it to the provider, once. *)
Theorem widget_request_passes_validation (s : WidgetState) :
  trim (query s) <> [] -> subject s <> [] ->
  body (chat_init rt (query s) (subject s))
  = JSON_stringify rt (payload_of s)
  /\ Route.well_formed (payload_of s) (VStr (query s)) (VStr (subject s))
  /\ exists response t,
       relay (payload_of s) = (inr response, t)
       /\ Route.response_status response <> 400
       /\ fetch_count t = 1%nat.
Proof.
  intros Hq Hs. split; [reflexivity|].
  pose proof (payload_well_formed s Hq Hs) as Hwf. split; [exact Hwf|].
  destruct (prompt_of_payload s) as [prompt_text Hb].
  destruct (serve_well_formed_cases _ _ _ _ Hwf Hb)
    as [(t & E & Hc) | (text & t & _ & E & Hc)];
    rewrite E; do 2 eexists; (split; [reflexivity|]);
    (split; [discriminate | exact Hc]).
Qed.



(** X17.  A provider failure reaches the screen as the fixed message only.
    When the provider call for an accepted submission throws or comes back
    outside 2xx, and the relay's answer is delivered, the widget is Failed
    and shows ['Sorry, I encountered an error. Please try again.']:
    neither the provider's detail nor the relay's own error string is
    shown. *)
Theorem provider_failure_reaches_widget (s : WidgetState) sent got :
  trim (query s) <> [] -> subject s <> [] ->
  Route.call_failed (provider_reply s) = true ->
  fst (relay (payload_of s)) = inr sent ->
  network w (js "/api/chat") (chat_init rt (query s) (subject s)) = inr got ->
  Wire.delivered sent got ->
  exists s',
    submit rt w s = (inr tt, s', [PreventDefault; call s])
    /\ Route.response_status sent = 500
    /\ loading s' = false
    /\ response s' = VStr failure_message
    /\ phase s' = Failed.
Proof.
  intros Hq Hs Hfail Hr Hn [_ Hp].
  pose proof (payload_well_formed s Hq Hs) as Hwf.
  destruct (prompt_of_payload s) as [prompt_text Hb].
  assert (E : sent = Route.provider_error).
  { destruct (provider_reply s) as [e|r] eqn:Hpr.
    - rewrite (serve_fetch_throws _ _ _ _ _ _ _ _ _ Hwf Hb Hpr) in Hr.
      simpl in Hr. congruence.
    - simpl in Hfail. apply negb_true_iff in Hfail.
      destruct (serve_not_ok _ _ _ _ _ _ _ _ _ Hwf Hb Hpr Hfail) as [err E].
      rewrite E in Hr. simpl in Hr. congruence. }
  subst sent. eexists. split.
  { apply (submit_flag_falsy rt w s got
             (Route.response_body Route.provider_error) (VBool false));
      auto. }
  repeat split.
Qed.

End EndToEnd.

(* ===================================================================== *)
(** * Further properties at concrete inputs *)
(* ===================================================================== *)

Module MoreExamples.
Import Sample.

#[local] Abbreviation serve := (Route.serve Sample.rt None (js "k")).
#[local] Abbreviation physics := (VStr (js "Physics")).
#[local] Abbreviation inertia := (VStr (js "What is inertia?")).
#[local] Abbreviation asking := (typed "What is inertia?" "Physics").
#[local] Abbreviation quota :=
  (VObj [(js "error", VObj [(js "message", VStr (js "quota exceeded"))])]).

Lemma relay_success_iff_2xx_witness :
  exists response t,
    serve (respond (http 201 "Created" (reply (VStr (js "ok")))))
          (ask inertia physics) = (inr response, t)
    /\ (Route.response_status response = 200 <-> 200 <= 201 /\ 201 <= 299).
Proof.
  eapply (relay_success_iff_2xx Sample.rt None (js "k")
            (respond (http 201 "Created" (reply (VStr (js "ok")))))
            (VObj [(js "query", inertia); (js "subject", physics)])
            inertia physics _
            {| status := 201; statusText := js "Created";
               parsed := inr (reply (VStr (js "ok"))) |}
            (reply (VStr (js "ok"))) (VStr (js "ok")));
    first [reflexivity | repeat split].
Defined.

Lemma relay_logs_provider_message_witness :
  serve (respond (http 429 "Too Many Requests" quota)) (ask inertia physics)
  = (inr Route.provider_error,
     [Fetch Route.endpoint
            (Route.provider_init Sample.rt None (js "k") physics inertia);
      ConsoleError (js "Chat API Error:")
        (Error (js "Google API error: quota exceeded"))]).
Proof.
  eapply (relay_logs_provider_message Sample.rt None (js "k") _
            _ inertia physics _
            {| status := 429; statusText := js "Too Many Requests";
               parsed := inr quota |}
            quota);
    first [reflexivity | repeat split].
Defined.

(** Line 52 itself throws when the error body is null or the message is an
    object with a [toString] of its own: the log has the [TypeError]. *)
Example relay_logs_type_error_for_null_body :
  serve (respond (http 500 "Internal Server Error" VNull))
        (ask inertia physics)
  = (inr Route.provider_error,
     [Fetch Route.endpoint
            (Route.provider_init Sample.rt None (js "k") physics inertia);
      ConsoleError (js "Chat API Error:") TypeError]).
Proof. reflexivity. Qed.

Example relay_logs_type_error_for_unconvertible_message :
  serve (respond (http 500 "Internal Server Error"
                    (VObj [(js "error",
                            VObj [(js "message",
                                   VObj [(js "toString", VNum 1%float)])])])))
        (ask inertia physics)
  = (inr Route.provider_error,
     [Fetch Route.endpoint
            (Route.provider_init Sample.rt None (js "k") physics inertia);
      ConsoleError (js "Chat API Error:")
        (Thrown (js "TypeError")
                (js "Cannot convert object to primitive value"))]).
Proof. reflexivity. Qed.

Lemma relay_unparseable_error_body_witness :
  serve (respond (inr {| status := 502; statusText := js "Bad Gateway";
                         parsed := inl (Thrown (js "SyntaxError")
                                          (js "Unexpected token <")) |}))
        (ask inertia physics)
  = (inr Route.provider_error,
     [Fetch Route.endpoint
            (Route.provider_init Sample.rt None (js "k") physics inertia);
      ConsoleError (js "Chat API Error:")
        (Thrown (js "SyntaxError") (js "Unexpected token <"))]).
Proof.
  eapply (relay_unparseable_error_body Sample.rt None (js "k") _
            _ inertia physics);
    first [reflexivity | repeat split].
Defined.

Lemma relay_key_selection_witness :
  headers (Route.provider_init Sample.rt (Some []) (js "k") physics inertia)
  = [(js "Content-Type", js "application/json"); (js "x-goog-api-key", js "k")].
Proof.
  refine (proj1 (relay_key_selection Sample.rt (Some []) (js "k")
                   physics inertia _)).
  discriminate.
Defined.


(** What the panel makes of answers that are not strings: an infinite
    number reaches the widget as null and nothing is shown; an object makes
    the render throw. *)
Example infinite_text_shows_nothing :
  Route.response_body (Route.answer (VNum infinity))
  = VObj [(js "success", VBool true); (js "response", VNull)]
  /\ FloatingChat.response_area
       (snd (fst (FloatingChat.submit Sample.rt
                    (respond (Wire.carried (Route.answer (VNum infinity))))
                    asking)))
     = FloatingChat.Nothing.
Proof. split; reflexivity. Qed.

Example object_text_breaks_the_render :
  FloatingChat.response_area
    (snd (fst (FloatingChat.submit Sample.rt
                 (respond (Wire.carried
                             (Route.answer (VObj [(js "a", VStr (js "b"))]))))
                 asking)))
  = FloatingChat.Broken.
Proof. reflexivity. Qed.

Lemma accepted_submit_calls_once_witness :
  exists s',
    FloatingChat.submit Sample.rt (respond unreachable) asking
    = (inr tt, s',
       [PreventDefault;
        Fetch (js "/api/chat")
              (FloatingChat.chat_init Sample.rt (js "What is inertia?")
                 (js "Physics"))])
    /\ fetch_count
         (snd (FloatingChat.submit Sample.rt (respond unreachable) asking))
       = 1%nat
    /\ method (FloatingChat.chat_init Sample.rt (js "What is inertia?")
                 (js "Physics")) = js "POST"
    /\ FloatingChat.loading s' = false
    /\ FloatingChat.response_area s' <> FloatingChat.Thinking.
Proof.
  apply (accepted_submit_calls_once Sample.rt (respond unreachable) asking);
    discriminate.
Defined.

Lemma submit_keeps_concurrent_edits_witness :
  exists s' mid,
    fst (fst (FloatingChat.submit Sample.rt
                (Wire.cleared_meanwhile unreachable) asking)) = inr tt
    /\ snd (fst (FloatingChat.submit Sample.rt
                   (Wire.cleared_meanwhile unreachable) asking)) = s'
    /\ (mid = interleaved (Wire.cleared_meanwhile unreachable)
                (Wire.pending asking)
        \/ mid = interleaved (Wire.cleared_meanwhile unreachable)
                   (interleaved (Wire.cleared_meanwhile unreachable)
                      (Wire.pending asking)))
    /\ FloatingChat.isOpen s' = FloatingChat.isOpen mid
    /\ FloatingChat.query s' = FloatingChat.query mid
    /\ FloatingChat.subject s' = FloatingChat.subject mid
    /\ FloatingChat.phase (Wire.pending asking) = FloatingChat.Pending.
Proof.
  apply (submit_keeps_concurrent_edits Sample.rt
           (Wire.cleared_meanwhile unreachable) asking);
    discriminate.
Defined.

Lemma late_answer_survives_clear_witness :
  snd (fst (FloatingChat.submit Sample.rt
              (Wire.cleared_meanwhile
                 (Wire.carried (Route.answer (VStr (js "Inertia is ...")))))
              asking))
  = {| FloatingChat.isOpen := true;
       FloatingChat.query := [];
       FloatingChat.subject := [];
       FloatingChat.response := VStr (js "Inertia is ...");
       FloatingChat.loading := false |}.
Proof.
  eapply (late_answer_survives_clear Sample.rt _ asking);
    first [discriminate | reflexivity].
Defined.

Lemma submit_ignores_loading_witness :
  FloatingChat.submit_disabled waiting = true
  /\ filter is_fetch
       (snd (FloatingChat.submit Sample.rt (respond unreachable) waiting))
     = [Fetch (js "/api/chat")
              (FloatingChat.chat_init Sample.rt (js "What is inertia?")
                 (js "Physics"))].
Proof.
  apply (submit_ignores_loading Sample.rt (respond unreachable) waiting);
    first [reflexivity | discriminate].
Defined.

Lemma widget_request_passes_validation_witness :
  body (FloatingChat.chat_init Sample.rt (js "  What is inertia?") (js "Physics"))
  = JSON_stringify Sample.rt
      (Wire.chat_payload (js "  What is inertia?") (js "Physics"))
  /\ Route.well_formed
       (Wire.chat_payload (js "  What is inertia?") (js "Physics"))
       (VStr (js "  What is inertia?")) physics
  /\ exists response t,
       serve (respond unreachable)
             {| Route.request_parsed :=
                  inr (Wire.chat_payload (js "  What is inertia?")
                         (js "Physics")) |}
       = (inr response, t)
       /\ Route.response_status response <> 400
       /\ fetch_count t = 1%nat.
Proof.
  apply (widget_request_passes_validation Sample.rt None (js "k")
           (respond unreachable) (typed "  What is inertia?" "Physics"));
    discriminate.
Defined.



Lemma provider_failure_reaches_widget_witness :
  exists s',
    FloatingChat.submit Sample.rt
      (respond (Wire.carried Route.provider_error)) asking
    = (inr tt, s',
       [PreventDefault;
        Fetch (js "/api/chat")
              (FloatingChat.chat_init Sample.rt (js "What is inertia?")
                 (js "Physics"))])
    /\ Route.response_status Route.provider_error = 500
    /\ FloatingChat.loading s' = false
    /\ FloatingChat.response s' = VStr FloatingChat.failure_message
    /\ FloatingChat.phase s' = FloatingChat.Failed.
Proof.
  eapply (provider_failure_reaches_widget Sample.rt None (js "k")
            (respond (http 503 "Service Unavailable" quota))
            (respond (Wire.carried Route.provider_error)) asking);
    first [discriminate | reflexivity | split; reflexivity].
Defined.

End MoreExamples.

(* ===================================================================== *)
(** * The students list of the admin page *)
(* ===================================================================== *)

Section FloatOrder.
Import FloatOps SpecFloat.

(** [n > 0] and [n === 0] exclude each other, and [n >= 0] is one of the
    two. *)
Lemma positive_is_not_zero (n : float) :
  PrimFloat.ltb 0%float n = true -> PrimFloat.eqb n 0%float = false.
Proof.
  intros H. rewrite FloatAxioms.ltb_spec in H. rewrite FloatAxioms.eqb_spec.
  unfold SFltb, SFeqb in *.
  change (Prim2SF 0%float) with (S754_zero false) in *.
  destruct (Prim2SF n) as [sg|sg| |sg m e]; simpl in *;
    try discriminate; try reflexivity;
    destruct sg; simpl in *; try reflexivity; try discriminate.
Qed.

Lemma nonnegative_cases (n : float) :
  PrimFloat.leb 0%float n = true ->
  PrimFloat.ltb 0%float n = true \/ PrimFloat.eqb n 0%float = true.
Proof.
  intros H. rewrite FloatAxioms.leb_spec in H.
  rewrite FloatAxioms.ltb_spec, FloatAxioms.eqb_spec.
  unfold SFleb, SFltb, SFeqb in *.
  change (Prim2SF 0%float) with (S754_zero false) in *.
  destruct (Prim2SF n) as [sg|sg| |sg m e]; simpl in *;
    try discriminate; auto;
    destruct sg; simpl in *; auto; discriminate.
Qed.

End FloatOrder.

Section Strings.
Import Admin.

Lemma startsWith_prefix (s t : jsstring) :
  startsWith s t = true <-> exists post, s = t ++ post.
Proof.
  revert s. induction t as [|c t IH]; intros s; simpl.
  - split; [intros _; exists s; reflexivity | reflexivity].
  - destruct s as [|d s]; simpl.
    + split; [discriminate | intros [post H]; discriminate].
    + rewrite andb_true_iff, N.eqb_eq, IH. split.
      * intros [-> [post ->]]. exists post. reflexivity.
      * intros [post H]. inversion H; subst. split; [reflexivity|].
        exists post. reflexivity.
Qed.

(** [includes] is the substring test. *)
Lemma includes_occurs (s t : jsstring) :
  includes s t = true <-> occurs t s.
Proof.
  unfold occurs. induction s as [|d s IH]; simpl.
  - rewrite orb_false_r, startsWith_prefix. split.
    + intros [post H]. exists [], post. exact H.
    + intros (pre & post & H). destruct pre; simpl in H.
      * exists post. exact H.
      * discriminate.
  - rewrite orb_true_iff, startsWith_prefix, IH. split.
    + intros [[post H] | (pre & post & H)].
      * exists [], post. exact H.
      * exists (d :: pre), post. simpl. rewrite H. reflexivity.
    + intros (pre & post & H). destruct pre as [|x pre]; simpl in H.
      * left. exists post. exact H.
      * right. inversion H; subst. exists pre, post. reflexivity.
Qed.

Lemma includes_empty (s : jsstring) : includes s [] = true.
Proof. destruct s; reflexivity. Qed.

Lemma truthy_text_Some (x : option jsstring) (p : jsstring) :
  truthy_text x = Some p <-> x = Some p /\ p <> [].
Proof.
  destruct x as [[|c t]|]; simpl; split; try discriminate;
    try (intros [H _]; discriminate).
  - intros [H E]. inversion H; subst. congruence.
  - intros H. inversion H; subst. split; [reflexivity | discriminate].
  - intros [H _]. exact H.
Qed.

Lemma occurrences_app (c : N) (a b : jsstring) :
  occurrences c (a ++ b) = (occurrences c a + occurrences c b)%nat.
Proof. unfold occurrences. rewrite filter_app, length_app. reflexivity. Qed.

Lemma occurrences_absent (c : N) (s : jsstring) :
  ~ In c s -> occurrences c s = 0%nat.
Proof.
  unfold occurrences. induction s as [|u s IH]; intros Hn; [reflexivity|].
  cbn [filter]. destruct (N.eqb_spec c u) as [E|E].
  - exfalso. apply Hn. left. congruence.
  - apply IH. intros Hin. apply Hn. right. exact Hin.
Qed.

Lemma occurrences_join (c : N) (sep : jsstring) (parts : list jsstring) :
  occurrences c (join sep parts)
  = (list_sum (map (occurrences c) parts)
     + pred (List.length parts) * occurrences c sep)%nat.
Proof.
  induction parts as [|p rest IH]; [reflexivity|].
  destruct rest as [|q rest].
  - simpl. lia.
  - change (join sep (p :: q :: rest)) with (p ++ sep ++ join sep (q :: rest)).
    rewrite !occurrences_app, IH. simpl. lia.
Qed.

Lemma list_sum_cons (a : nat) (l : list nat) :
  list_sum (a :: l) = (a + list_sum l)%nat.
Proof. reflexivity. Qed.

Lemma filter_all (A : Type) (f : A -> bool) (l : list A) :
  (forall x, In x l -> f x = true) -> filter f l = l.
Proof.
  induction l as [|x l IH]; intros H; simpl; [reflexivity|].
  rewrite (H x (or_introl eq_refl)), IH; [reflexivity|].
  intros y Hy. apply H. right. exact Hy.
Qed.

Lemma filter_split_length (A : Type) (f g : A -> bool) (l : list A) :
  (forall x, In x l -> xorb (f x) (g x) = true) ->
  (List.length (filter f l) + List.length (filter g l))%nat = List.length l.
Proof.
  induction l as [|x l IH]; intros H; simpl; [reflexivity|].
  pose proof (H x (or_introl eq_refl)) as Hx.
  assert (IH' := IH (fun y Hy => H y (or_intror Hy))).
  destruct (f x), (g x); simpl in *; try discriminate; lia.
Qed.

Lemma filter_disjoint_length (A : Type) (f g : A -> bool) (l : list A) :
  (forall x, f x && g x = false) ->
  (List.length (filter f l) + List.length (filter g l) <= List.length l)%nat.
Proof.
  intros H. induction l as [|x l IH]; simpl; [lia|].
  specialize (H x). destruct (f x), (g x); simpl in *; try discriminate; lia.
Qed.

End Strings.

Section StudentsList.
Variable rt : Builtins.
Variable host : Admin.Host.

Import Admin.

#[local] Abbreviation lower := (toLowerCase host).
#[local] Abbreviation filterStudents := (Admin.filterStudents host).

Lemma matches_search_found (term : jsstring) (st : Student) :
  matches_search host term st = true
  <-> occurs (lower term) (lower (name st))
      \/ occurs (lower term) (lower (email st))
      \/ exists p, phone st = Some p /\ p <> []
                   /\ occurs (lower term) (lower p).
Proof.
  unfold matches_search. rewrite !orb_true_iff, !includes_occurs.
  split.
  - intros [[H | H] | H]; auto.
    destruct (truthy_text (phone st)) as [p|] eqn:E; [|discriminate].
    apply truthy_text_Some in E. destruct E as [E1 E2].
    right; right. exists p. rewrite includes_occurs in H. auto.
  - intros [H | [H | (p & E1 & E2 & H)]]; auto.
    right. rewrite (proj2 (truthy_text_Some (phone st) p) (conj E1 E2)).
    apply includes_occurs. exact H.
Qed.

(** X18.  The list shows exactly the students it should: a student is in
    the result of [filterStudents] if and only if it is in [students], the
    lower-cased search term occurs in its lower-cased name or email or in
    its lower-cased non-empty phone, and it passes the chosen filter
    ([enrolled_courses > 0] for Enrolled, [=== 0] for Not Enrolled). *)
Theorem filter_shows_exactly_matches students term filterType (st : Student) :
  In st (filterStudents students term filterType)
  <-> In st students
      /\ (occurs (lower term) (lower (name st))
          \/ occurs (lower term) (lower (email st))
          \/ exists p, phone st = Some p /\ p <> []
                       /\ occurs (lower term) (lower p))
      /\ match filterType with
         | all => True
         | enrolled => PrimFloat.ltb 0%float (enrolled_courses st) = true
         | not_enrolled => PrimFloat.eqb (enrolled_courses st) 0%float = true
         end.
Proof.
  unfold Admin.filterStudents.
  destruct filterType; rewrite ?filter_In, <- matches_search_found;
    unfold is_enrolled, is_not_enrolled; tauto.
Qed.

(** X19.  An empty search box hides nobody: when lower-casing leaves the
    empty string empty, the empty term matches every student, so All shows
    the whole list in its order and the two other filters show exactly the
    enrolled and the not enrolled students. *)
Theorem empty_search_shows_all students :
  lower [] = [] ->
  filterStudents students [] all = students
  /\ filterStudents students [] enrolled = filter is_enrolled students
  /\ filterStudents students [] not_enrolled
     = filter is_not_enrolled students.
Proof.
  intros Hl.
  assert (E : filter (matches_search host []) students = students).
  { apply filter_all. intros st _. unfold matches_search.
    rewrite Hl, includes_empty. reflexivity. }
  unfold Admin.filterStudents. rewrite E. repeat split.
Qed.

(** X20.  Enrolled and Not Enrolled never overlap: no student passes both
    tests, so the two counters of the cards add up to at most the total,
    and for every search the two filtered lists together are no longer
    than the list under All. *)
Theorem enrolled_and_not_enrolled_are_disjoint students term :
  (forall st, is_enrolled st && is_not_enrolled st = false)
  /\ (enrolled_count students + not_enrolled_count students
      <= List.length students)%nat
  /\ (List.length (filterStudents students term enrolled)
      + List.length (filterStudents students term not_enrolled)
      <= List.length (filterStudents students term all))%nat.
Proof.
  assert (D : forall st, is_enrolled st && is_not_enrolled st = false).
  { intros st. unfold is_enrolled, is_not_enrolled.
    destruct (PrimFloat.ltb 0 (enrolled_courses st)) eqn:E; [|reflexivity].
    rewrite (positive_is_not_zero _ E). reflexivity. }
  split; [exact D|]. split.
  - apply filter_disjoint_length. exact D.
  - unfold Admin.filterStudents. apply filter_disjoint_length. exact D.
Qed.

(** X21.  When no student has a negative or undefined course count, every
    student is either enrolled or not enrolled: the two counters add up to
    the total, and for every search the Enrolled and Not Enrolled lists
    split the list under All. *)
Theorem enrolled_and_not_enrolled_partition students term :
  (forall st, In st students ->
              PrimFloat.leb 0%float (enrolled_courses st) = true) ->
  (enrolled_count students + not_enrolled_count students)%nat
  = List.length students
  /\ (List.length (filterStudents students term enrolled)
      + List.length (filterStudents students term not_enrolled))%nat
     = List.length (filterStudents students term all).
Proof.
  intros Hnn.
  assert (X : forall st, In st students ->
                         xorb (is_enrolled st) (is_not_enrolled st) = true).
  { intros st Hin. unfold is_enrolled, is_not_enrolled.
    destruct (nonnegative_cases _ (Hnn st Hin)) as [E | E].
    - rewrite E, (positive_is_not_zero _ E). reflexivity.
    - rewrite E.
      destruct (PrimFloat.ltb 0 (enrolled_courses st)) eqn:E';
        [|reflexivity].
      rewrite (positive_is_not_zero _ E') in E. discriminate. }
  split.
  - apply filter_split_length. exact X.
  - unfold Admin.filterStudents. apply filter_split_length.
    intros st Hin. apply X. apply filter_In in Hin. tauto.
Qed.

(** X22.  The progress badge is coloured consistently: the text colour and
    the background always belong to the same band, green from 80 up, yellow
    from 50 up to below 80, red otherwise. *)
Theorem progress_colours_agree (progress : float) :
  (PrimFloat.leb 80%float progress = true
   /\ getProgressColor progress = js "text-green-600"
   /\ getProgressBgColor progress = js "bg-green-100 border-green-200")
  \/ (PrimFloat.leb 80%float progress = false
      /\ PrimFloat.leb 50%float progress = true
      /\ getProgressColor progress = js "text-yellow-600"
      /\ getProgressBgColor progress = js "bg-yellow-100 border-yellow-200")
  \/ (PrimFloat.leb 80%float progress = false
      /\ PrimFloat.leb 50%float progress = false
      /\ getProgressColor progress = js "text-red-600"
      /\ getProgressBgColor progress = js "bg-red-100 border-red-200").
Proof.
  unfold getProgressColor, getProgressBgColor.
  destruct (PrimFloat.leb 80 progress); [left; auto|].
  destruct (PrimFloat.leb 50 progress); [right; left; auto | right; right; auto].
Qed.

Lemma csv_row_occurrences (c : N) (cells : list jsstring) :
  occurrences c (csv_row cells)
  = (list_sum (map (occurrences c) cells)
     + (if c =? quote then 2 * List.length cells else 0)
     + (if c =? comma then pred (List.length cells) else 0))%nat.
Proof.
  unfold csv_row. rewrite occurrences_join, length_map.
  assert (S : list_sum (map (occurrences c)
                          (map (fun cell => [quote] ++ cell ++ [quote]) cells))
              = (list_sum (map (occurrences c) cells)
                 + (if c =? quote then 2 * List.length cells else 0))%nat).
  { assert (Q : occurrences c [quote] = if c =? quote then 1%nat else 0%nat).
    { unfold occurrences. simpl. destruct (c =? quote); reflexivity. }
    induction cells as [|x cells IH]; cbn [map List.length].
    - destruct (c =? quote); reflexivity.
    - rewrite !list_sum_cons, IH, !occurrences_app, Q.
      destruct (c =? quote); lia. }
  rewrite S.
  assert (K : occurrences c [comma] = if c =? comma then 1%nat else 0%nat).
  { unfold occurrences. simpl. destruct (c =? comma); reflexivity. }
  rewrite K.
  destruct (c =? comma); [rewrite PeanoNat.Nat.mul_1_r | rewrite PeanoNat.Nat.mul_0_r];
    reflexivity.
Qed.

(** X23.  The export has one line per student after the header.  When the
    list is not empty and no cell contains a line feed, [handleExportCSV]
    offers one file, [students-<date>.csv] of type text/csv, whose content
    has exactly as many line feeds as there are students, each row having
    the ten cells of the ten headers; the Export button is then enabled.
    With an empty list nothing is offered. *)
Theorem export_has_one_line_per_student students :
  students <> [] ->
  (forall st cell, In st students -> In cell (csv_cells rt host st) ->
                   ~ In line_feed cell) ->
  exists file,
    handleExportCSV rt host students = Some file
    /\ filename file
       = js "students-" ++ before 84 (now_toISOString host) ++ js ".csv"
    /\ type file = js "text/csv;charset=utf-8;"
    /\ occurrences line_feed (content file) = List.length students
    /\ (forall st, List.length (csv_cells rt host st)
                   = List.length csvHeaders)
    /\ export_disabled students = false
    /\ handleExportCSV rt host [] = None.
Proof.
  intros Hne Hcells.
  assert (C : forall cells,
             (forall cell, In cell cells -> ~ In line_feed cell) ->
             list_sum (map (occurrences line_feed) cells) = 0%nat).
  { induction cells as [|c cells IHc]; intros Hc; [reflexivity|].
    cbn [map]. rewrite list_sum_cons.
    rewrite IHc by (intros; apply Hc; right; assumption).
    rewrite (occurrences_absent _ _ (Hc c (or_introl eq_refl))).
    reflexivity. }
  assert (Z : forall l,
             (forall st, In st l -> In st students) ->
             list_sum (map (occurrences line_feed)
                         (map csv_row (map (csv_cells rt host) l))) = 0%nat).
  { induction l as [|x l IH]; intros Hsub; [reflexivity|].
    cbn [map]. rewrite list_sum_cons.
    rewrite IH by (intros; apply Hsub; right; assumption).
    rewrite csv_row_occurrences.
    rewrite C by (intros cell Hin; apply (Hcells x cell);
                  [apply Hsub; left; reflexivity | exact Hin]).
    reflexivity. }
  assert (L : occurrences line_feed (csvContent rt host students)
              = List.length students).
  { unfold csvContent. rewrite occurrences_join. cbn [map].
    rewrite list_sum_cons, (Z students (fun st H => H)).
    cbn [List.length pred]. rewrite !length_map.
    rewrite occurrences_join.
    assert (Hh : list_sum (map (occurrences line_feed) csvHeaders) = 0%nat)
      by reflexivity.
    assert (Hs : occurrences line_feed [comma] = 0%nat) by reflexivity.
    assert (Hl : occurrences line_feed [line_feed] = 1%nat) by reflexivity.
    rewrite Hh, Hs, Hl. lia. }
  destruct students as [|s0 rest]; [congruence|].
  eexists. split; [reflexivity|].
  split; [reflexivity|]. split; [reflexivity|]. split; [exact L|].
  repeat split.
Qed.

(** X24.  Cells are written between quotes as they are, without escaping:
    a row has twenty quote characters plus every quote that occurs in the
    student's cells, so a name with a double quote in it breaks the row. *)
Theorem export_does_not_escape_quotes (st : Student) :
  occurrences quote (csv_row (csv_cells rt host st))
  = (20 + list_sum (map (occurrences quote) (csv_cells rt host st)))%nat
  /\ (occurrences quote (name st)
      <= list_sum (map (occurrences quote) (csv_cells rt host st)))%nat.
Proof.
  rewrite csv_row_occurrences. split.
  - simpl (quote =? quote). simpl (quote =? comma).
    cbn [csv_cells List.length]. lia.
  - cbn [csv_cells map]. rewrite list_sum_cons. lia.
Qed.

End StudentsList.

(* ===================================================================== *)
(** * The reset-password dialog *)
(* ===================================================================== *)

Ltac run_reset :=
  cbv beta iota zeta delta
    [Admin.reset Admin.handleResetPassword Admin.try_catch_finally
     Admin.bind Admin.await Admin.fetch Admin.json Admin.lift Admin.ret
     Admin.throw Admin.emit Admin.modify Admin.instanceof_Error
     Admin.message_of app].

Section ResetDialog.
Variable rt : Builtins.
Variable host : Admin.Host.
Variable w : Admin.Net.
Variable studentId : jsstring.

Import Admin.

#[local] Abbreviation reset := (Admin.reset rt host w studentId).
#[local] Abbreviation request s :=
  (Fetched (reset_url studentId) (reset_init rt (passwordForm s))).
#[local] Abbreviation answer s :=
  (answer_to w (reset_url studentId) (reset_init rt (passwordForm s))).
#[local] Abbreviation new_of s := (newPassword (passwordForm s)).
#[local] Abbreviation confirm_of s := (confirmPassword (passwordForm s)).

Lemma jsstring_eqb_refl (a : jsstring) : jsstring_eqb a a = true.
Proof. apply jsstring_eqb_eq. reflexivity. Qed.

Lemma jsstring_eqb_neq (a b : jsstring) : a <> b -> jsstring_eqb a b = false.
Proof.
  intros H. destruct (jsstring_eqb a b) eqn:E; [|reflexivity].
  apply jsstring_eqb_eq in E. contradiction.
Qed.

Lemma long_is_not_empty (a : jsstring) :
  (6 <= List.length a)%nat -> is_empty a = false.
Proof. destruct a; simpl; [lia | reflexivity]. Qed.

Lemma reset_refused_empty (s : DialogState) :
  new_of s = [] \/ confirm_of s = [] ->
  reset s = (inr tt, refused s (js "Both password fields are required"),
             [DefaultPrevented]).
Proof.
  intros H. run_reset.
  assert (E : is_empty (new_of s) || is_empty (confirm_of s) = true).
  { destruct H as [-> | ->]; [reflexivity | apply orb_true_r]. }
  rewrite E. reflexivity.
Qed.

Lemma reset_refused_short (s : DialogState) :
  new_of s <> [] -> confirm_of s <> [] ->
  (List.length (new_of s) < 6)%nat ->
  reset s = (inr tt,
             refused s (js "Password must be at least 6 characters long"),
             [DefaultPrevented]).
Proof.
  intros Hn Hc Hl. run_reset.
  assert (E : is_empty (new_of s) || is_empty (confirm_of s) = false).
  { destruct (new_of s); [congruence|].
    destruct (confirm_of s); [congruence | reflexivity]. }
  rewrite E. cbv beta iota.
  rewrite (proj2 (PeanoNat.Nat.ltb_lt _ _) Hl). reflexivity.
Qed.

Lemma reset_refused_mismatch (s : DialogState) :
  (6 <= List.length (new_of s))%nat -> confirm_of s <> [] ->
  new_of s <> confirm_of s ->
  reset s = (inr tt, refused s (js "Passwords do not match"),
             [DefaultPrevented]).
Proof.
  intros Hl Hc Hne. run_reset.
  rewrite (long_is_not_empty _ Hl).
  assert (E : is_empty (confirm_of s) = false)
    by (destruct (confirm_of s); [congruence | reflexivity]).
  rewrite E. cbv beta iota. simpl orb. cbv beta iota.
  rewrite (proj2 (PeanoNat.Nat.ltb_ge _ _) Hl). cbv beta iota.
  rewrite (jsstring_eqb_neq _ _ Hne). reflexivity.
Qed.

(** The handler's run once the three checks have passed. *)
Lemma reset_accepted (s : DialogState) :
  (6 <= List.length (new_of s))%nat -> new_of s = confirm_of s ->
  reset s
  = (let '(r, s1, t1) :=
       match answer s with
       | inl e => (inl e, meanwhile w (submitted s), [])
       | inr response =>
           match parsed response with
           | inl e => (inl e, meanwhile w (meanwhile w (submitted s)), [])
           | inr result =>
               match Get result (js "success") with
               | inl e => (inl e, meanwhile w (meanwhile w (submitted s)), [])
               | inr success =>
                   if ToBoolean success then
                     (inr tt,
                      setPasswordForm
                        {| newPassword := []; confirmPassword := [] |}
                        (setPasswordSuccess (js "Password reset successfully!")
                           (meanwhile w (meanwhile w (submitted s)))),
                      [Timer 2000 close_dialog])
                   else
                     match Get result (js "error") with
                     | inl e =>
                         (inl e, meanwhile w (meanwhile w (submitted s)), [])
                     | inr error =>
                         match ToString rt
                                 (or_else error
                                    (VStr (js "Failed to reset password")))
                         with
                         | inl e =>
                             (inl e, meanwhile w (meanwhile w (submitted s)),
                              [])
                         | inr message =>
                             (inl (Error message),
                              meanwhile w (meanwhile w (submitted s)), [])
                         end
                     end
               end
           end
       end in
     (inr tt,
      setPasswordLoading false
        match r with
        | inl e => setPasswordError (message_of host e) s1
        | inr _ => s1
        end,
      DefaultPrevented :: request s :: t1)).
Proof.
  intros Hl He. run_reset.
  rewrite (long_is_not_empty _ Hl).
  assert (E : is_empty (confirm_of s) = false)
    by (rewrite <- He; apply long_is_not_empty; exact Hl).
  rewrite E. simpl orb. cbv beta iota.
  rewrite (proj2 (PeanoNat.Nat.ltb_ge _ _) Hl). cbv beta iota.
  assert (Q : jsstring_eqb (new_of s) (confirm_of s) = true)
    by (apply jsstring_eqb_eq; exact He).
  rewrite Q. simpl negb. cbv beta iota.
  destruct (answer s) as [e|response]; [reflexivity|].
  destruct (parsed response) as [e|result]; [reflexivity|].
  destruct (Get result (js "success")) as [e|success]; [reflexivity|].
  destruct (ToBoolean success); simpl negb; cbv beta iota; [reflexivity|].
  destruct (Get result (js "error")) as [e|error]; [reflexivity|].
  destruct (ToString rt (or_else error (VStr (js "Failed to reset password"))));
    reflexivity.
Qed.

Lemma reset_accepted_shape (s : DialogState) :
  (6 <= List.length (new_of s))%nat -> new_of s = confirm_of s ->
  exists s' t,
    reset s = (inr tt, s', DefaultPrevented :: request s :: t)
    /\ passwordLoading s' = false
    /\ filter is_request t = [].
Proof.
  intros Hl He. rewrite (reset_accepted s Hl He).
  destruct (answer s) as [e|response]; [do 2 eexists; repeat split|].
  destruct (parsed response) as [e|result]; [do 2 eexists; repeat split|].
  destruct (Get result (js "success")) as [e|success];
    [do 2 eexists; repeat split|].
  destruct (ToBoolean success); [do 2 eexists; repeat split|].
  destruct (Get result (js "error")) as [e|error];
    [do 2 eexists; repeat split|].
  destruct (ToString rt (or_else error (VStr (js "Failed to reset password"))));
    do 2 eexists; repeat split.
Qed.

(** X25.  Submitting the dialog always returns normally with
    [passwordLoading] cleared, and a request is sent exactly when the new
    password has at least six code units and equals the confirmation: then
    one POST to the student's reset-password endpoint, otherwise none. *)
Theorem reset_sends_iff_valid (s : DialogState) :
  exists s' t,
    reset s = (inr tt, s', t)
    /\ passwordLoading s' = false
    /\ filter is_request t
       = if Nat.leb 6 (List.length (new_of s))
            && jsstring_eqb (new_of s) (confirm_of s)
         then [Fetched (js "/api/admin/students/" ++ studentId ++
                        js "/reset-password")
                       (reset_init rt (passwordForm s))]
         else [].
Proof.
  destruct (Nat.leb 6 (List.length (new_of s))) eqn:L.
  - apply PeanoNat.Nat.leb_le in L.
    destruct (jsstring_eqb (new_of s) (confirm_of s)) eqn:Q.
    + apply jsstring_eqb_eq in Q.
      destruct (reset_accepted_shape s L Q) as (s' & t & E & Hl & Ht).
      exists s', (DefaultPrevented :: request s :: t).
      split; [exact E|]. split; [exact Hl|].
      cbn [filter is_request andb]. rewrite Ht. reflexivity.
    + assert (Hne : new_of s <> confirm_of s).
      { intros E. apply jsstring_eqb_eq in E. congruence. }
      destruct (confirm_of s) as [|c cs] eqn:Ec.
      * rewrite (reset_refused_empty s (or_intror Ec)).
        do 2 eexists. repeat split.
      * rewrite (reset_refused_mismatch s L); [| rewrite Ec; discriminate
                                                | rewrite Ec; exact Hne].
        do 2 eexists. repeat split.
  - apply PeanoNat.Nat.leb_gt in L.
    destruct (new_of s) as [|c cs] eqn:En.
    { rewrite (reset_refused_empty s (or_introl En)).
      do 2 eexists. repeat split. }
    destruct (confirm_of s) as [|d ds] eqn:Ec.
    { rewrite (reset_refused_empty s (or_intror Ec)).
      do 2 eexists. repeat split. }
    rewrite (reset_refused_short s); [| rewrite En; discriminate
                                       | rewrite Ec; discriminate
                                       | rewrite En; exact L].
    do 2 eexists. repeat split.
Qed.


(** X27.  When the server answers an accepted submission with a truthy
    [success], the dialog shows "Password reset successfully!", both typed
    passwords are wiped, the spinner is off, and one timer of 2000 ms is
    set whose callback closes the dialog and removes the message.  The
    request carries [newPassword] only. *)
Theorem reset_success (s : DialogState) response result success :
  (6 <= List.length (new_of s))%nat -> new_of s = confirm_of s ->
  answer s = inr response -> parsed response = inr result ->
  Get result (js "success") = inr success -> ToBoolean success = true ->
  exists s',
    reset s
    = (inr tt, s', [DefaultPrevented; request s; Timer 2000 close_dialog])
    /\ s' = setPasswordLoading false
              (setPasswordForm {| newPassword := []; confirmPassword := [] |}
                 (setPasswordSuccess (js "Password reset successfully!")
                    (meanwhile w (meanwhile w (submitted s)))))
    /\ passwordSuccess s' = js "Password reset successfully!"
    /\ passwordForm s' = {| newPassword := []; confirmPassword := [] |}
    /\ passwordLoading s' = false
    /\ (forall x, showPasswordDialog (close_dialog x) = false
                  /\ passwordSuccess (close_dialog x) = [])
    /\ body (reset_init rt (passwordForm s))
       = Some (JSON_stringify rt
                 (VObj [(js "newPassword", VStr (new_of s))])).
Proof.
  intros Hl He Ha Hp Hg Ht.
  rewrite (reset_accepted s Hl He), Ha, Hp, Hg, Ht.
  eexists. split; [reflexivity|]. repeat split.
Qed.

(** X28.  When the server answers an accepted submission without a truthy
    [success], the dialog shows "Failed to reset password" when the body's
    [error] is falsy, and the text [error] converts to when it is truthy;
    an [error] that cannot be converted (an object with a [toString] of its
    own) makes [new Error(...)] throw, and the dialog shows the message of
    that exception.  Either way the typed passwords stay in the form, no
    timer is set and no success message is shown. *)
Theorem reset_server_error_is_shown (s : DialogState) response result
    success error :
  (6 <= List.length (new_of s))%nat -> new_of s = confirm_of s ->
  answer s = inr response -> parsed response = inr result ->
  Get result (js "success") = inr success -> ToBoolean success = false ->
  Get result (js "error") = inr error ->
  exists s',
    reset s = (inr tt, s', [DefaultPrevented; request s])
    /\ passwordError s'
       = (if ToBoolean error then
            match ToString rt error with
            | inr text => text
            | inl e => message_of host e
            end
          else js "Failed to reset password")
    /\ passwordLoading s' = false
    /\ passwordForm s' = passwordForm (meanwhile w (meanwhile w (submitted s)))
    /\ passwordSuccess s'
       = passwordSuccess (meanwhile w (meanwhile w (submitted s)))
    /\ passwordSuccess (submitted s) = []
    /\ passwordForm (submitted s) = passwordForm s.
Proof.
  intros Hl He Ha Hp Hg Ht Hr.
  rewrite (reset_accepted s Hl He), Ha, Hp, Hg, Ht, Hr.
  unfold or_else. destruct (ToBoolean error).
  - destruct (ToString rt error) as [e|text];
      eexists; (split; [reflexivity|]); repeat split.
  - eexists. split; [reflexivity|]. repeat split.
Qed.

(** X29.  An eye button flips the visibility of its own field only: the
    other field, the form, the messages and the dialog stay as they are,
    a second press restores the state, and the two buttons commute. *)
Theorem toggle_visibility_is_local (s : DialogState) :
  exists s1 s2,
    togglePasswordVisibility field_new w s = (inr tt, s1, [])
    /\ togglePasswordVisibility field_confirm w s = (inr tt, s2, [])
    /\ show_new (showPasswords s1) = negb (show_new (showPasswords s))
    /\ show_confirm (showPasswords s1) = show_confirm (showPasswords s)
    /\ show_confirm (showPasswords s2) = negb (show_confirm (showPasswords s))
    /\ show_new (showPasswords s2) = show_new (showPasswords s)
    /\ passwordForm s1 = passwordForm s
    /\ showPasswordDialog s1 = showPasswordDialog s
    /\ togglePasswordVisibility field_new w s1 = (inr tt, s, [])
    /\ togglePasswordVisibility field_confirm w s2 = (inr tt, s, [])
    /\ togglePasswordVisibility field_confirm w s1
       = togglePasswordVisibility field_new w s2.
Proof.
  destruct s as [d f l e m [n c]].
  do 2 eexists. split; [reflexivity|]. split; [reflexivity|].
  unfold togglePasswordVisibility, modify, setShowPasswords. simpl.
  rewrite !negb_involutive. repeat split.
Qed.

End ResetDialog.

(* ===================================================================== *)
(** * The admin pages at concrete inputs *)
(* ===================================================================== *)

Module AdminExamples.
Import AdminSample.

Lemma empty_search_shows_all_witness :
  Admin.filterStudents host roster [] Admin.all = roster
  /\ Admin.filterStudents host roster [] Admin.enrolled
     = filter Admin.is_enrolled roster
  /\ Admin.filterStudents host roster [] Admin.not_enrolled
     = filter Admin.is_not_enrolled roster.
Proof.
  apply (empty_search_shows_all host roster). reflexivity.
Defined.

Lemma enrolled_and_not_enrolled_partition_witness :
  (Admin.enrolled_count roster + Admin.not_enrolled_count roster)%nat
  = List.length roster
  /\ (List.length (Admin.filterStudents host roster (js "EXAMPLE")
                     Admin.enrolled)
      + List.length (Admin.filterStudents host roster (js "EXAMPLE")
                       Admin.not_enrolled))%nat
     = List.length (Admin.filterStudents host roster (js "EXAMPLE")
                      Admin.all).
Proof.
  apply (enrolled_and_not_enrolled_partition host roster (js "EXAMPLE")).
  intros st [<- | [<- | []]]; reflexivity.
Defined.

Lemma export_has_one_line_per_student_witness :
  exists file,
    Admin.handleExportCSV Sample.rt host roster = Some file
    /\ Admin.filename file = js "students-2025-03-01.csv"
    /\ Admin.type file = js "text/csv;charset=utf-8;"
    /\ Admin.occurrences Admin.line_feed (Admin.content file) = 2%nat
    /\ (forall st, List.length (Admin.csv_cells Sample.rt host st)
                   = List.length Admin.csvHeaders)
    /\ Admin.export_disabled roster = false
    /\ Admin.handleExportCSV Sample.rt host [] = None.
Proof.
  apply (export_has_one_line_per_student Sample.rt host roster).
  - discriminate.
  - intros st cell [<- | [<- | []]] Hc; simpl in Hc;
      repeat (destruct Hc as [<- | Hc]; [vm_compute; intuition discriminate|]);
      destruct Hc.
Defined.


Lemma reset_success_witness :
  exists s',
    Admin.reset Sample.rt host
      (server (Sample.http 200 "OK" (VObj [(js "success", VBool true)])))
      (js "42") (dialog "secret" "secret")
    = (inr tt, s',
       [Admin.DefaultPrevented;
        Admin.Fetched (js "/api/admin/students/42/reset-password")
          (Admin.reset_init Sample.rt
             {| Admin.newPassword := js "secret";
                Admin.confirmPassword := js "secret" |});
        Admin.Timer 2000 Admin.close_dialog])
    /\ Admin.passwordSuccess s' = js "Password reset successfully!"
    /\ Admin.passwordForm s'
       = {| Admin.newPassword := []; Admin.confirmPassword := [] |}
    /\ Admin.passwordLoading s' = false.
Proof.
  destruct (reset_success Sample.rt host
              (server (Sample.http 200 "OK" (VObj [(js "success", VBool true)])))
              (js "42") (dialog "secret" "secret")
              {| status := 200; statusText := js "OK";
                 parsed := inr (VObj [(js "success", VBool true)]) |}
              (VObj [(js "success", VBool true)]) (VBool true)
              ltac:(simpl; lia) eq_refl eq_refl eq_refl eq_refl eq_refl)
    as (s' & E & _ & H1 & H2 & H3 & _).
  exists s'. repeat split; assumption.
Defined.

Lemma reset_server_error_is_shown_witness :
  exists s',
    Admin.reset Sample.rt host
      (server (Sample.http 404 "Not Found"
                 (VObj [(js "success", VBool false);
                        (js "error", VStr (js "Student not found"))])))
      (js "42") (dialog "secret" "secret")
    = (inr tt, s',
       [Admin.DefaultPrevented;
        Admin.Fetched (js "/api/admin/students/42/reset-password")
          (Admin.reset_init Sample.rt
             {| Admin.newPassword := js "secret";
                Admin.confirmPassword := js "secret" |})])
    /\ Admin.passwordError s' = js "Student not found"
    /\ Admin.passwordLoading s' = false
    /\ Admin.passwordForm s'
       = {| Admin.newPassword := js "secret";
            Admin.confirmPassword := js "secret" |}.
Proof.
  destruct (reset_server_error_is_shown Sample.rt host
              (server (Sample.http 404 "Not Found"
                         (VObj [(js "success", VBool false);
                                (js "error", VStr (js "Student not found"))])))
              (js "42") (dialog "secret" "secret")
              {| status := 404; statusText := js "Not Found";
                 parsed := inr (VObj [(js "success", VBool false);
                                      (js "error",
                                       VStr (js "Student not found"))]) |}
              (VObj [(js "success", VBool false);
                     (js "error", VStr (js "Student not found"))])
              (VBool false) (VStr (js "Student not found"))
              ltac:(simpl; lia) eq_refl eq_refl eq_refl eq_refl eq_refl
              eq_refl)
    as (s' & E & H1 & H2 & H3 & _).
  exists s'. repeat split; assumption.
Defined.

(** An [error] that cannot be converted: [new Error(...)] throws, and the
    dialog shows the message of that [TypeError]. *)
Example reset_unconvertible_error_shows_engine_message :
  Admin.passwordError
    (snd (fst (Admin.reset Sample.rt host
                 (server (Sample.http 400 "Bad Request"
                            (VObj [(js "success", VBool false);
                                   (js "error",
                                    VObj [(js "toString", VNum 1%float)])])))
                 (js "42") (dialog "secret" "secret"))))
  = js "Cannot convert object to primitive value".
Proof. reflexivity. Qed.

(** The search is a substring search on lower-cased text. *)
Example search_finds_by_email_case_insensitively :
  Admin.filterStudents host roster (js "BOB@") Admin.all
  = [student "Bob Roy" "bob@example.org" None 0%float].
Proof. reflexivity. Qed.

Example export_content :
  option_map Admin.content
    (Admin.handleExportCSV Sample.rt host
       [student "Bob Roy" "bob@example.org" None 0%float])
  = Some (js "Name,Email,Phone,Enrolled Courses,Completed Courses,Average Progress,Completed Modules,Total Modules,Last Activity,Created Date"
          ++ [Admin.line_feed]
          ++ [Admin.quote] ++ js "Bob Roy" ++ [Admin.quote; Admin.comma; Admin.quote]
          ++ js "bob@example.org" ++ [Admin.quote; Admin.comma; Admin.quote]
          ++ js "N/A" ++ [Admin.quote; Admin.comma; Admin.quote]
          ++ js "0" ++ [Admin.quote; Admin.comma; Admin.quote]
          ++ js "0" ++ [Admin.quote; Admin.comma; Admin.quote]
          ++ js "0%" ++ [Admin.quote; Admin.comma; Admin.quote]
          ++ js "0" ++ [Admin.quote; Admin.comma; Admin.quote]
          ++ js "0" ++ [Admin.quote; Admin.comma; Admin.quote]
          ++ js "No activity" ++ [Admin.quote; Admin.comma; Admin.quote]
          ++ js "2024-09-01" ++ [Admin.quote]).
Proof. reflexivity. Qed.

End AdminExamples.
